(** * gh-app-local: the pull-request webhook handlers

    A shallow embedding of the two variants of the [pull_request] webhook
    handler of the repository:

    - [Index]   : [src/index.js], the required-file checks
                  ([fileExists], [renderTable], [renderComment] and the
                  handler registered with [webhooks.on]);
    - [Part000] : [src/unnamed/part_000], the demonstration variant whose
                  verdict comes from [Math.random].

    JavaScript promises are modelled by a small monad [Async]: a computation
    reads the answers of the remote side from an oracle, may throw, and
    emits the chronological list of what it did (requests with their answers
    and console lines).  [await p] is monadic bind, [try { } catch (e) { }]
    is [try_catch], and [Promise.all(xs.map(async ...))] is [Promise_all],
    which starts every element before looking at any outcome. *)

From Stdlib Require Import String Ascii List ZArith Bool Lia.
From Stdlib Require Import Decimal DecimalString.
From Stdlib Require DecimalNat DecimalFacts.
Import ListNotations.
Open Scope string_scope.

(** ** Strings *)

(** The line feed of the template literals. *)
Definition nl : string := String (ascii_of_nat 10) EmptyString.

(** [`${n}`] for a non-negative integer such as [xs.length]. *)
Definition string_of_nat (n : nat) : string :=
  NilZero.string_of_uint (Nat.to_uint n).

(** [`${z}`] for an integer such as [check.id]. *)
Definition string_of_Z (z : Z) : string :=
  NilZero.string_of_int (Z.to_int z).

(** [xs.join(sep)] *)
Definition join (sep : string) (xs : list string) : string :=
  String.concat sep xs.

(** [xs.includes(x)] on strings. *)
Definition includes (xs : list string) (x : string) : bool :=
  existsb (String.eqb x) xs.

(** [t] occurs in [s] as a contiguous run of characters. *)
Definition occurs_in (t s : string) : Prop :=
  exists pre post, s = pre ++ t ++ post.

(** ** The remote side and the effect monad *)

(** [output] of a check-run update. *)
Record Output := mkOutput {
  title : string;
  summary : string;
  text : string
}.

(** What the handlers send.  [Authenticate] is
    [app.getInstallationOctokit(Number(installationId))]; the other four are
    the four routes passed to [octokit.request]. *)
Inductive Request :=
| Authenticate (installationId : Z)
| CreateCheckRun (owner repo name head_sha status : string)
| GetContents (owner repo path ref : string)
| UpdateCheckRun (owner repo : string) (check_run_id : Z)
                 (status conclusion : string) (output : Output)
| CreateComment (owner repo : string) (issue_number : Z) (body : string).

(** A thrown value, seen through its [status] property ([None] when the
    error carries none, as a transport fault does). *)
Definition Error := option Z.

(** The promise of a request resolves with a response, of which only
    [data.id] is ever read, or rejects. *)
Inductive Response :=
| Resolved (data_id : Z)
| Rejected (e : Error).

Inductive Level := LogLevel | ErrorLevel.

(** Observable steps of a handler run. *)
Inductive Event :=
| Call (q : Request) (a : Response)
| Console (lvl : Level) (msg : string).

(** The remote side answers a request knowing everything that happened
    before it. *)
Definition Remote := list Event -> Request -> Response.

Inductive Outcome (A : Type) :=
| Return (a : A)
| Throw (e : Error).
Arguments Return {A} a.
Arguments Throw {A} e.

(** A computation is run against a remote, after a history; it yields its
    outcome and the events it added, oldest first. *)
Definition Async (A : Type) := Remote -> list Event -> Outcome A * list Event.

Definition ret {A} (a : A) : Async A := fun _ _ => (Return a, []).

Definition throw {A} (e : Error) : Async A := fun _ _ => (Throw e, []).

Definition bind {A B} (m : Async A) (k : A -> Async B) : Async B :=
  fun R h =>
    match m R h with
    | (Return a, t1) => let (o, t2) := k a R (h ++ t1)%list in (o, (t1 ++ t2)%list)
    | (Throw e, t1) => (Throw e, t1)
    end.

Definition try_catch {A} (m : Async A) (handler : Error -> Async A) : Async A :=
  fun R h =>
    match m R h with
    | (Return a, t1) => (Return a, t1)
    | (Throw e, t1) => let (o, t2) := handler e R (h ++ t1)%list in (o, (t1 ++ t2)%list)
    end.

(** [await octokit.request(route, params)] *)
Definition request (q : Request) : Async Z :=
  fun R h =>
    match R h q with
    | Resolved id => (Return id, [Call q (Resolved id)])
    | Rejected e => (Throw e, [Call q (Rejected e)])
    end.

Definition console_log (msg : string) : Async unit :=
  fun _ _ => (Return tt, [Console LogLevel msg]).

Definition console_error (msg : string) : Async unit :=
  fun _ _ => (Return tt, [Console ErrorLevel msg]).

Declare Scope async_scope.
Delimit Scope async_scope with async.
Notation "x <- m ;; k" := (bind m (fun x => k))
  (at level 61, m at next level, right associativity) : async_scope.
Notation "m ;; k" := (bind m (fun _ => k))
  (at level 61, right associativity) : async_scope.
Open Scope async_scope.

(** Every promise of the list is started, in order, whatever the earlier
    ones settle to: [xs.map(async ...)] runs each callback up to its request
    before [Promise.all] sees any of them. *)
Fixpoint settle_all {A} (ps : list (Async A)) : Async (list (Outcome A)) :=
  fun R h =>
    match ps with
    | [] => (Return [], [])
    | p :: ps' =>
        let (o, t1) := p R h in
        match settle_all ps' R (h ++ t1)%list with
        | (Return os, t2) => (Return (o :: os), (t1 ++ t2)%list)
        | (Throw e, t2) => (Throw e, (t1 ++ t2)%list)
        end
    end.

(** The values when all fulfilled, otherwise a rejection. *)
Fixpoint collect {A} (os : list (Outcome A)) : Outcome (list A) :=
  match os with
  | [] => Return []
  | Throw e :: _ => Throw e
  | Return a :: os' =>
      match collect os' with
      | Return xs => Return (a :: xs)
      | Throw e => Throw e
      end
  end.

(** [await Promise.all(ps)] *)
Definition Promise_all {A} (ps : list (Async A)) : Async (list A) :=
  os <- settle_all ps ;;
  match collect os with
  | Return xs => ret xs
  | Throw e => throw e
  end.

(** ** The webhook payload *)

(** The fields the handlers read.  A field that is absent from the payload
    reads [undefined] through the optional chaining; [None] stands for it. *)
Record Payload := mkPayload {
  action : string;
  installation_id : option Z;             (* payload.installation?.id *)
  owner_login : option string;            (* payload.repository?.owner?.login *)
  repository_name : option string;        (* payload.repository?.name *)
  head_sha : option string;               (* payload.pull_request?.head?.sha *)
  number : option Z                       (* payload.number *)
}.

(** [!x] on a number-valued field: [undefined] and [0] are falsy. *)
Definition falsyZ (x : option Z) : bool :=
  match x with
  | None => true
  | Some z => Z.eqb z 0
  end.

(** [!x] on a string-valued field: [undefined] and the empty string are falsy. *)
Definition falsyS (x : option string) : bool :=
  match x with
  | None => true
  | Some s => String.eqb s ""
  end.

(** The actions the handlers act on. *)
Definition actionable : list string := ["opened"; "reopened"; "synchronize"].

(** Projections of a run. *)
Definition run {A} (m : Async A) (R : Remote) : Outcome A * list Event := m R [].

Definition trace {A} (m : Async A) (R : Remote) : list Event := snd (run m R).

Definition outcome {A} (m : Async A) (R : Remote) : Outcome A := fst (run m R).

(** The requests of a trace, oldest first. *)
Fixpoint requests (t : list Event) : list Request :=
  match t with
  | [] => []
  | Call q _ :: t' => q :: requests t'
  | Console _ _ :: t' => requests t'
  end.

Definition is_update (q : Request) : bool :=
  match q with
  | UpdateCheckRun _ _ _ _ _ _ => true
  | _ => false
  end.

Definition is_comment (q : Request) : bool :=
  match q with
  | CreateComment _ _ _ _ => true
  | _ => false
  end.

(** The check-run updates (finalize calls) of a trace, oldest first. *)
Definition updates (t : list Event) : list Request := filter is_update (requests t).

(** The comment posts of a trace. *)
Definition comments (t : list Event) : list Request := filter is_comment (requests t).

(** Some request of the trace matching [p] was rejected. *)
Fixpoint rejected (p : Request -> bool) (t : list Event) : bool :=
  match t with
  | [] => false
  | Call q (Rejected _) :: t' => p q || rejected p t'
  | _ :: t' => rejected p t'
  end.

(** The conclusions sent by the check-run updates of a trace, oldest first. *)
Fixpoint conclusions (qs : list Request) : list string :=
  match qs with
  | [] => []
  | UpdateCheckRun _ _ _ _ c _ :: qs' => c :: conclusions qs'
  | _ :: qs' => conclusions qs'
  end.

(** One rule result, as the rows built by the handlers: [{ name, pass, notes }]
    ([description] in the demonstration variant).  [notes] may be missing. *)
Record RuleResult := mkRule {
  name : string;
  pass : bool;
  notes : option string
}.

(** [x || ""] *)
Definition or_empty (x : option string) : string :=
  match x with
  | Some s => s
  | None => ""
  end.

(** ** [src/index.js]: the required-file checks *)

Module Index.

(** [getInstallationOctokit(installationId)] *)
Definition getInstallationOctokit (installationId : Z) : Async Z :=
  request (Authenticate installationId).

(** [e.status === 404] *)
Definition is_404 (e : Error) : bool :=
  match e with
  | Some s => Z.eqb s 404
  | None => false
  end.

(** [fileExists(octokit, { owner, repo, path, ref })] *)
Definition fileExists (owner repo path ref : string) : Async bool :=
  try_catch
    (request (GetContents owner repo path ref) ;;
     ret true)
    (fun e => if is_404 e then ret false else throw e).

Definition renderRow (r : RuleResult) : string :=
  "| " ++ name r ++ " | " ++ (if pass r then "✅ Present" else "❌ Missing")
       ++ " | " ++ or_empty (notes r) ++ " |".

(** [renderTable(rows)] *)
Definition renderTable (rows : list RuleResult) : string :=
  let body := join nl (map renderRow rows) in
  "| Check | Result | Notes |" ++ nl ++ "|---|---|---|" ++ nl ++ body.

Definition passed_header : string :=
  "✅ **Compliance PASSED** — All required files are present.".

Definition failed_header (missing : list string) : string :=
  "❌ **Compliance FAILED** — Missing: " ++ join ", " missing.

(** [renderComment(rows)] *)
Definition renderComment (rows : list RuleResult) : string :=
  let missing := map name (filter (fun r => negb (pass r)) rows) in
  let header :=
    if Nat.eqb (length missing) 0 then passed_header else failed_header missing in
  header ++ nl ++ nl ++ renderTable rows.

Definition targets : list string := ["README.md"; "CONTRIBUTING.md"].

(** The callback of [targets.map]: one rule, the file [p] at the head commit. *)
Definition check_target (owner repo headSha p : string) : Async RuleResult :=
  b <- fileExists owner repo p headSha ;;
  ret {| name := p; pass := b; notes := Some "Checked at repo root" |}.

(** The verification step: [await Promise.all(targets.map(...))]. *)
Definition verify (ts : list string) (owner repo headSha : string)
  : Async (list RuleResult) :=
  Promise_all (map (check_target owner repo headSha) ts).

Definition allPass (existence : list RuleResult) : bool :=
  forallb pass existence.

Definition summary_of (existence : list RuleResult) : string :=
  string_of_nat (length (filter pass existence)) ++ " / "
    ++ string_of_nat (length existence) ++ " required files present".

Definition conclusion_of (existence : list RuleResult) : string :=
  if allPass existence then "success" else "failure".

(** The [output] of the update that carries the computed verdict. *)
Definition verdict_output (existence : list RuleResult) : Output :=
  {| title := "Compliance (files): " ++ (if allPass existence then "PASSED" else "FAILED");
     summary := summary_of existence;
     text := "### Required files" ++ nl ++ renderTable existence |}.

(** The [output] of the update sent from the [catch] block. *)
Definition error_output : Output :=
  {| title := "Compliance (files): ERROR";
     summary := "Error while performing required-file checks";
     text := "See app logs for details." |}.

(** The update that carries the computed verdict. *)
Definition finalize_verdict (owner repo : string) (check_id : Z)
    (existence : list RuleResult) : Request :=
  UpdateCheckRun owner repo check_id "completed" (conclusion_of existence)
                 (verdict_output existence).

(** The update of the [catch] block. *)
Definition finalize_error (owner repo : string) (check_id : Z) : Request :=
  UpdateCheckRun owner repo check_id "completed" "failure" error_output.

(** The [try] block of the handler, over the rule list [ts]. *)
Definition try_block (ts : list string) (owner repo headSha : string)
    (prNumber check_id : Z) : Async unit :=
  existence <- verify ts owner repo headSha ;;
  request (finalize_verdict owner repo check_id existence) ;;
  request (CreateComment owner repo prNumber (renderComment existence)) ;;
  console_log ("[checks] completed " ++ conclusion_of existence
                 ++ " & commented for " ++ owner ++ "/" ++ repo ++ "@" ++ headSha).

(** The [catch (err)] block of the handler. *)
Definition catch_block (owner repo : string) (check_id : Z) (err : Error)
  : Async unit :=
  console_error "Error during file checks:" ;;
  try_catch
    (request (finalize_error owner repo check_id) ;; ret tt)
    (fun _ => ret tt).

(** What follows the guards, once every field is known to be there. *)
Definition process (ts : list string) (installationId : Z)
    (owner repo headSha : string) (prNumber : Z) : Async unit :=
  getInstallationOctokit installationId ;;
  check_id <- request (CreateCheckRun owner repo "Compliance" headSha "in_progress") ;;
  try_catch
    (try_block ts owner repo headSha prNumber check_id)
    (catch_block owner repo check_id).

(** The [pull_request] handler, over the rule list [ts]. *)
Definition handler_on (ts : list string) (payload : Payload) : Async unit :=
  if negb (includes actionable (action payload)) then ret tt else
  console_log "PR event" ;;
  if falsyZ (installation_id payload) || falsyS (owner_login payload)
     || falsyS (repository_name payload) || falsyS (head_sha payload)
     || falsyZ (number payload)
  then ret tt
  else
    match installation_id payload, owner_login payload,
          repository_name payload, head_sha payload, number payload with
    | Some installationId, Some owner, Some repo, Some headSha, Some prNumber =>
        process ts installationId owner repo headSha prNumber
    | _, _, _, _, _ => ret tt
    end.

(** [webhooks.on("pull_request", async ({ payload, id, name }) => ...)] *)
Definition handler (payload : Payload) : Async unit :=
  handler_on targets payload.

End Index.

(** ** [src/unnamed/part_000]: the demonstration variant *)

Module Part000.

Definition getInstallationOctokit (installationId : Z) : Async Z :=
  request (Authenticate installationId).

(** The three rows of the demonstration; [compliant] is the value of
    [Math.random() > 0.5] drawn by the run. *)
Definition checks (compliant : bool) : list RuleResult :=
  [ {| name := "No Critical Vulns"; pass := compliant;
       notes := Some (if compliant then "OK" else "Found 1 critical (demo)") |};
    {| name := "License Policy"; pass := true; notes := Some "OK" |};
    {| name := "Sonar Quality Gate"; pass := true; notes := Some "OK" |} ].

Definition renderRow (c : RuleResult) : string :=
  "| " ++ name c ++ " | " ++ (if pass c then "✅" else "❌") ++ " | "
       ++ or_empty (notes c) ++ " |".

Definition table_of (cs : list RuleResult) : string :=
  let rows := join nl (map renderRow cs) in
  "| Check | Result | Notes |" ++ nl ++ "|---|---|---|" ++ nl ++ rows.

Definition summary_of (cs : list RuleResult) : string :=
  let passedCount := length (filter pass cs) in
  string_of_nat passedCount ++ " / " ++ string_of_nat (length cs) ++ " checks passed".

Definition conclusion_of (compliant : bool) : string :=
  if compliant then "success" else "failure".

Definition verdict_output (compliant : bool) : Output :=
  {| title := "Compliance: " ++ (if compliant then "PASSED" else "FAILED");
     summary := summary_of (checks compliant);
     text := "### Checks" ++ nl ++ table_of (checks compliant) |}.

Definition error_output : Output :=
  {| title := "Compliance: ERROR";
     summary := "Compliance run failed";
     text := "See server logs for details." |}.

Definition finalize_verdict (owner repo : string) (check_id : Z)
    (compliant : bool) : Request :=
  UpdateCheckRun owner repo check_id "completed" (conclusion_of compliant)
                 (verdict_output compliant).

Definition finalize_error (owner repo : string) (check_id : Z) : Request :=
  UpdateCheckRun owner repo check_id "completed" "failure" error_output.

(** The [try] block; the two-second timer resolves and adds no event. *)
Definition try_block (compliant : bool) (owner repo headSha : string)
    (check_id : Z) : Async unit :=
  request (finalize_verdict owner repo check_id compliant) ;;
  console_log ("[checks] completed " ++ conclusion_of compliant ++ " for "
                 ++ owner ++ "/" ++ repo ++ "@" ++ headSha).

Definition catch_block (owner repo : string) (check_id : Z) (err : Error)
  : Async unit :=
  console_error "Error during compliance run:" ;;
  try_catch
    (request (finalize_error owner repo check_id) ;; ret tt)
    (fun e2 => console_error "Also failed to update check run:").

Definition process (compliant : bool) (installationId : Z)
    (owner repo headSha : string) : Async unit :=
  getInstallationOctokit installationId ;;
  check_id <- request (CreateCheckRun owner repo "Compliance" headSha "in_progress") ;;
  console_log ("[checks] in_progress created id=" ++ string_of_Z check_id ++ " for "
                 ++ owner ++ "/" ++ repo ++ "@" ++ headSha) ;;
  try_catch
    (try_block compliant owner repo headSha check_id)
    (catch_block owner repo check_id).

(** The [pull_request] handler of the demonstration variant. *)
Definition handler (compliant : bool) (payload : Payload) : Async unit :=
  if negb (includes actionable (action payload)) then ret tt else
  console_log "PR event" ;;
  if falsyZ (installation_id payload) || falsyS (owner_login payload)
     || falsyS (repository_name payload) || falsyS (head_sha payload)
  then console_error "Missing required fields from webhook payload"
  else
    match installation_id payload, owner_login payload,
          repository_name payload, head_sha payload with
    | Some installationId, Some owner, Some repo, Some headSha =>
        process compliant installationId owner repo headSha
    | _, _, _, _ => ret tt
    end.

End Part000.

(** ** Reading a trace *)

Definition is_contents (q : Request) : bool :=
  match q with
  | GetContents _ _ _ _ => true
  | _ => false
  end.

Definition is_authenticate (q : Request) : bool :=
  match q with
  | Authenticate _ => true
  | _ => false
  end.

Definition is_create (q : Request) : bool :=
  match q with
  | CreateCheckRun _ _ _ _ _ => true
  | _ => false
  end.

(** The identifier returned by the check-run creation, when it resolved. *)
Fixpoint created_id (t : list Event) : option Z :=
  match t with
  | [] => None
  | Call (CreateCheckRun _ _ _ _ _) (Resolved id) :: _ => Some id
  | _ :: t' => created_id t'
  end.

(** The bodies of the comment posts. *)
Fixpoint bodies (qs : list Request) : list string :=
  match qs with
  | [] => []
  | CreateComment _ _ _ b :: qs' => b :: bodies qs'
  | _ :: qs' => bodies qs'
  end.

(** The reports (conclusion and output) carried by check-run updates. *)
Fixpoint reports (qs : list Request) : list (string * Output) :=
  match qs with
  | [] => []
  | UpdateCheckRun _ _ _ _ c out :: qs' => (c, out) :: reports qs'
  | _ :: qs' => reports qs'
  end.

(** The answers the run received to its repository-contents queries, with
    the path asked, oldest first. *)
Fixpoint contents_answers (t : list Event) : list (string * Response) :=
  match t with
  | [] => []
  | Call (GetContents _ _ path _) a :: t' => (path, a) :: contents_answers t'
  | _ :: t' => contents_answers t'
  end.

(** How the required-file rule settles on an answer of the contents query:
    present, absent on a 404, and an error on any other rejection. *)
Definition rule_on (pa : string * Response) : Outcome RuleResult :=
  match snd pa with
  | Resolved _ =>
      Return {| name := fst pa; pass := true; notes := Some "Checked at repo root" |}
  | Rejected e =>
      if Index.is_404 e
      then Return {| name := fst pa; pass := false; notes := Some "Checked at repo root" |}
      else Throw e
  end.

(** The verdict the answers in a trace amount to: the rule results in the
    order asked, or the error of a rule that did not settle normally. *)
Definition observed (t : list Event) : Outcome (list RuleResult) :=
  collect (map rule_on (contents_answers t)).

(** The answer is a rejection with something else than a 404. *)
Definition unexpected (pa : string * Response) : bool :=
  match snd pa with
  | Rejected e => negb (Index.is_404 e)
  | Resolved _ => false
  end.

(** The owner and repository a payload names. *)
Definition owner_of (p : Payload) : string := or_empty (owner_login p).
Definition repo_of (p : Payload) : string := or_empty (repository_name p).
Definition sha_of (p : Payload) : string := or_empty (head_sha p).

(** The event filter of [src/index.js] lets the payload through. *)
Definition dropped_index (p : Payload) : bool :=
  negb (includes actionable (action p))
  || falsyZ (installation_id p) || falsyS (owner_login p)
  || falsyS (repository_name p) || falsyS (head_sha p) || falsyZ (number p).

(** The event filter of [src/unnamed/part_000]. *)
Definition dropped_part000 (p : Payload) : bool :=
  negb (includes actionable (action p))
  || falsyZ (installation_id p) || falsyS (owner_login p)
  || falsyS (repository_name p) || falsyS (head_sha p).

(** The events of a trace are all contents queries. *)
Definition only_contents (t : list Event) : Prop :=
  Forall (fun ev => match ev with
                    | Call q _ => is_contents q = true
                    | Console _ _ => False
                    end) t.

(** What follows the verification, by its outcome. *)
Inductive IndexAfter (owner repo : string) (prNumber : Z) (headSha : string) (c : Z)
  : Outcome (list RuleResult) -> list Event -> Prop :=
| after_rule_error e a :
    IndexAfter owner repo prNumber headSha c (Throw e)
      [Console ErrorLevel "Error during file checks:";
       Call (Index.finalize_error owner repo c) a]
| after_update_rejected ex e a :
    IndexAfter owner repo prNumber headSha c (Return ex)
      [Call (Index.finalize_verdict owner repo c ex) (Rejected e);
       Console ErrorLevel "Error during file checks:";
       Call (Index.finalize_error owner repo c) a]
| after_comment_rejected ex x e a :
    IndexAfter owner repo prNumber headSha c (Return ex)
      [Call (Index.finalize_verdict owner repo c ex) (Resolved x);
       Call (CreateComment owner repo prNumber (Index.renderComment ex)) (Rejected e);
       Console ErrorLevel "Error during file checks:";
       Call (Index.finalize_error owner repo c) a]
| after_commented ex x y :
    IndexAfter owner repo prNumber headSha c (Return ex)
      [Call (Index.finalize_verdict owner repo c ex) (Resolved x);
       Call (CreateComment owner repo prNumber (Index.renderComment ex)) (Resolved y);
       Console LogLevel ("[checks] completed " ++ Index.conclusion_of ex
                           ++ " & commented for " ++ owner ++ "/" ++ repo ++ "@" ++ headSha)].

(** The runs of [Index.process], by the step that ends them. *)
Inductive IndexRun (ts : list string) (installationId : Z)
    (owner repo headSha : string) (prNumber : Z)
  : Outcome unit -> list Event -> Prop :=
| run_auth_rejected e :
    IndexRun ts installationId owner repo headSha prNumber
      (Throw e) [Call (Authenticate installationId) (Rejected e)]
| run_create_rejected a e :
    IndexRun ts installationId owner repo headSha prNumber
      (Throw e)
      [Call (Authenticate installationId) (Resolved a);
       Call (CreateCheckRun owner repo "Compliance" headSha "in_progress") (Rejected e)]
| run_verified c a tv rest :
    only_contents tv ->
    map fst (contents_answers tv) = ts ->
    requests tv = map (fun p => GetContents owner repo p headSha) ts ->
    IndexAfter owner repo prNumber headSha c (observed tv) rest ->
    IndexRun ts installationId owner repo headSha prNumber
      (Return tt)
      ([Call (Authenticate installationId) (Resolved a);
        Call (CreateCheckRun owner repo "Compliance" headSha "in_progress") (Resolved c)]
         ++ tv ++ rest)%list.

(** The runs of [Part000.process], by the step that ends them. *)
Inductive DemoRun (compliant : bool) (installationId : Z)
    (owner repo headSha : string)
  : Outcome unit -> list Event -> Prop :=
| demo_auth_rejected e :
    DemoRun compliant installationId owner repo headSha
      (Throw e) [Call (Authenticate installationId) (Rejected e)]
| demo_create_rejected a e :
    DemoRun compliant installationId owner repo headSha
      (Throw e)
      [Call (Authenticate installationId) (Resolved a);
       Call (CreateCheckRun owner repo "Compliance" headSha "in_progress") (Rejected e)]
| demo_completed a c x :
    DemoRun compliant installationId owner repo headSha
      (Return tt)
      [Call (Authenticate installationId) (Resolved a);
       Call (CreateCheckRun owner repo "Compliance" headSha "in_progress") (Resolved c);
       Console LogLevel ("[checks] in_progress created id=" ++ string_of_Z c ++ " for "
                           ++ owner ++ "/" ++ repo ++ "@" ++ headSha);
       Call (Part000.finalize_verdict owner repo c compliant) (Resolved x);
       Console LogLevel ("[checks] completed " ++ Part000.conclusion_of compliant
                           ++ " for " ++ owner ++ "/" ++ repo ++ "@" ++ headSha)]
| demo_update_rejected a c e z :
    DemoRun compliant installationId owner repo headSha
      (Return tt)
      [Call (Authenticate installationId) (Resolved a);
       Call (CreateCheckRun owner repo "Compliance" headSha "in_progress") (Resolved c);
       Console LogLevel ("[checks] in_progress created id=" ++ string_of_Z c ++ " for "
                           ++ owner ++ "/" ++ repo ++ "@" ++ headSha);
       Call (Part000.finalize_verdict owner repo c compliant) (Rejected e);
       Console ErrorLevel "Error during compliance run:";
       Call (Part000.finalize_error owner repo c) (Resolved z)]
| demo_both_rejected a c e e2 :
    DemoRun compliant installationId owner repo headSha
      (Return tt)
      [Call (Authenticate installationId) (Resolved a);
       Call (CreateCheckRun owner repo "Compliance" headSha "in_progress") (Resolved c);
       Console LogLevel ("[checks] in_progress created id=" ++ string_of_Z c ++ " for "
                           ++ owner ++ "/" ++ repo ++ "@" ++ headSha);
       Call (Part000.finalize_verdict owner repo c compliant) (Rejected e);
       Console ErrorLevel "Error during compliance run:";
       Call (Part000.finalize_error owner repo c) (Rejected e2);
       Console ErrorLevel "Also failed to update check run:"].

(** The answers to the requests of a trace that match [p], oldest first. *)
Fixpoint answers (p : Request -> bool) (t : list Event) : list Response :=
  match t with
  | [] => []
  | Call q a :: t' => if p q then a :: answers p t' else answers p t'
  | Console _ _ :: t' => answers p t'
  end.

(** The row the required-file rule makes of a normal answer. *)
Definition row_of (pa : string * Response) : RuleResult :=
  {| name := fst pa;
     pass := match snd pa with Resolved _ => true | Rejected _ => false end;
     notes := Some "Checked at repo root" |}.

(** ** Sample payloads and remotes *)

Definition pr_opened : Payload :=
  {| action := "opened";
     installation_id := Some 7%Z;
     owner_login := Some "octo";
     repository_name := Some "demo";
     head_sha := Some "abc123";
     number := Some 3%Z |}.

Definition pr_closed : Payload :=
  {| action := "closed";
     installation_id := Some 7%Z;
     owner_login := Some "octo";
     repository_name := Some "demo";
     head_sha := Some "abc123";
     number := Some 3%Z |}.

Definition pr_without_number : Payload :=
  {| action := "opened";
     installation_id := Some 7%Z;
     owner_login := Some "octo";
     repository_name := Some "demo";
     head_sha := Some "abc123";
     number := None |}.

Definition pr_without_sha : Payload :=
  {| action := "synchronize";
     installation_id := Some 7%Z;
     owner_login := Some "octo";
     repository_name := Some "demo";
     head_sha := None;
     number := Some 3%Z |}.

(** Every request resolves; the check run created has identifier 42. *)
Definition remote_ok : Remote :=
  fun _ q =>
    match q with
    | CreateCheckRun _ _ _ _ _ => Resolved 42
    | _ => Resolved 0
    end.

(** As [remote_ok], but the requests picked by [bad] are rejected. *)
Definition remote_rejecting (bad : Request -> option Error) : Remote :=
  fun h q =>
    match bad q with
    | Some e => Rejected e
    | None => remote_ok h q
    end.

Definition remote_auth_rejected : Remote :=
  remote_rejecting (fun q => if is_authenticate q then Some (Some 401%Z) else None).

Definition remote_create_rejected : Remote :=
  remote_rejecting (fun q => if is_create q then Some (Some 403%Z) else None).

Definition remote_comment_rejected : Remote :=
  remote_rejecting (fun q => if is_comment q then Some (Some 403%Z) else None).

(** [CONTRIBUTING.md] is not in the repository. *)
Definition remote_contributing_absent : Remote :=
  remote_rejecting
    (fun q =>
       match q with
       | GetContents _ _ path _ =>
           if String.eqb path "CONTRIBUTING.md" then Some (Some 404%Z) else None
       | _ => None
       end).

(** The query for [README.md] meets a server error. *)
Definition remote_readme_fault : Remote :=
  remote_rejecting
    (fun q =>
       match q with
       | GetContents _ _ path _ =>
           if String.eqb path "README.md" then Some (Some 500%Z) else None
       | _ => None
       end).

(** The first check-run update of a run is rejected, later ones resolve. *)
Definition remote_first_update_rejected : Remote :=
  fun h q =>
    match q, updates h with
    | UpdateCheckRun _ _ _ _ _ _, [] => Rejected (Some 502%Z)
    | _, _ => remote_ok h q
    end.

(** ** Console lines and the end of a trace *)

(** The console lines of a trace, oldest first. *)
Fixpoint console_lines (t : list Event) : list (Level * string) :=
  match t with
  | [] => []
  | Console lvl msg :: t' => (lvl, msg) :: console_lines t'
  | Call _ _ :: t' => console_lines t'
  end.

(** The last event of a trace. *)
Fixpoint final_event (t : list Event) : option Event :=
  match t with
  | [] => None
  | [ev] => Some ev
  | _ :: t' => final_event t'
  end.

(** Something went wrong after the creation: a contents query met a
    rejection other than a 404, or an update or the comment was rejected. *)
Definition failed (t : list Event) : bool :=
  existsb unexpected (contents_answers t)
  || rejected is_update t || rejected is_comment t.

(** Every request resolves except check-run updates, which are all rejected. *)
Definition remote_updates_rejected : Remote :=
  remote_rejecting (fun q => if is_update q then Some (Some 500%Z) else None).

(** ** What the check run is left with *)

(** The check-run updates of a trace that resolved, oldest first. *)
Fixpoint resolved_updates (t : list Event) : list Request :=
  match t with
  | [] => []
  | Call q (Resolved _) :: t' =>
      if is_update q then q :: resolved_updates t' else resolved_updates t'
  | _ :: t' => resolved_updates t'
  end.

Fixpoint last_of {A} (l : list A) : option A :=
  match l with
  | [] => None
  | [x] => Some x
  | _ :: l' => last_of l'
  end.

(** The conclusion the remote check run is left with when the run ends: the
    one of the last update that resolved. *)
Definition recorded_conclusion (t : list Event) : option string :=
  last_of (conclusions (resolved_updates t)).

(** The report the answers to the contents queries call for: the error
    report when a rule met an unexpected rejection, otherwise the report of
    the verdict that holds one row per answer. *)
Definition report_of_answers (l : list (string * Response)) : string * Output :=
  if existsb unexpected l
  then ("failure", Index.error_output)
  else (Index.conclusion_of (map row_of l), Index.verdict_output (map row_of l)).

(** * Properties *)

(** ** Traces *)

Lemma requests_app (s t : list Event) :
  requests (s ++ t)%list = (requests s ++ requests t)%list.
Proof.
  induction s as [|[q a|lvl msg] s IH]; simpl; [reflexivity| |assumption].
  now rewrite IH.
Qed.

Lemma updates_app (s t : list Event) :
  updates (s ++ t)%list = (updates s ++ updates t)%list.
Proof. unfold updates. now rewrite requests_app, filter_app. Qed.

Lemma comments_app (s t : list Event) :
  comments (s ++ t)%list = (comments s ++ comments t)%list.
Proof. unfold comments. now rewrite requests_app, filter_app. Qed.

Lemma rejected_app (p : Request -> bool) (s t : list Event) :
  rejected p (s ++ t)%list = rejected p s || rejected p t.
Proof.
  induction s as [|[q [id|e]|lvl msg] s IH]; simpl; try assumption; [reflexivity|].
  now rewrite IH, orb_assoc.
Qed.

Lemma contents_answers_app (s t : list Event) :
  contents_answers (s ++ t)%list = (contents_answers s ++ contents_answers t)%list.
Proof.
  induction s as [|[q a|lvl msg] s IH]; simpl; [reflexivity| |assumption].
  destruct q; simpl; try assumption. now rewrite IH.
Qed.

Lemma created_id_app (s t : list Event) :
  created_id (s ++ t)%list =
  match created_id s with
  | Some c => Some c
  | None => created_id t
  end.
Proof.
  induction s as [|[q a|lvl msg] s IH]; simpl; [reflexivity| |assumption].
  destruct q; try assumption. destruct a; [reflexivity|assumption].
Qed.

Lemma answers_app (p : Request -> bool) (s t : list Event) :
  answers p (s ++ t)%list = (answers p s ++ answers p t)%list.
Proof.
  induction s as [|[q a|lvl msg] s IH]; simpl; [reflexivity| |assumption].
  destruct (p q); simpl; now rewrite IH.
Qed.

(** A stretch of contents queries holds no other call. *)
Lemma only_contents_filter (p : Request -> bool) (tv : list Event) :
  only_contents tv ->
  (forall o r path ref, p (GetContents o r path ref) = false) ->
  filter p (requests tv) = [].
Proof.
  intros Htv Hp.
  induction Htv as [|[q a|lvl msg] t Hq Ht IH]; simpl; [reflexivity| |contradiction].
  destruct q; try discriminate. now rewrite Hp.
Qed.

Lemma only_contents_updates (tv : list Event) :
  only_contents tv -> updates tv = [].
Proof. intros Htv. now apply only_contents_filter. Qed.

Lemma only_contents_comments (tv : list Event) :
  only_contents tv -> comments tv = [].
Proof. intros Htv. now apply only_contents_filter. Qed.

Lemma only_contents_created (tv : list Event) :
  only_contents tv -> created_id tv = None.
Proof.
  intros Htv.
  induction Htv as [|[q a|lvl msg] t Hq Ht IH]; simpl; [reflexivity| |contradiction].
  destruct q; try discriminate. assumption.
Qed.

Lemma only_contents_rejected (p : Request -> bool) (tv : list Event) :
  only_contents tv ->
  (forall o r path ref, p (GetContents o r path ref) = false) ->
  rejected p tv = false.
Proof.
  intros Htv Hp.
  induction Htv as [|[q a|lvl msg] t Hq Ht IH]; simpl; [reflexivity| |contradiction].
  destruct q; try discriminate. destruct a; [assumption|]. now rewrite Hp.
Qed.

Lemma only_contents_answers (p : Request -> bool) (tv : list Event) :
  only_contents tv ->
  (forall o r path ref, p (GetContents o r path ref) = false) ->
  answers p tv = [].
Proof.
  intros Htv Hp.
  induction Htv as [|[q a|lvl msg] t Hq Ht IH]; simpl; [reflexivity| |contradiction].
  destruct q; try discriminate. now rewrite Hp.
Qed.

(** ** The verification step of [src/index.js] *)

(** One rule issues one contents query and settles as [rule_on] says. *)
Lemma check_target_run (owner repo headSha p : string) (R : Remote) (h : list Event) :
  settle_all [Index.check_target owner repo headSha p] R h =
  (Return [rule_on (p, R h (GetContents owner repo p headSha))],
   [Call (GetContents owner repo p headSha) (R h (GetContents owner repo p headSha))]).
Proof.
  unfold settle_all, Index.check_target, Index.fileExists, bind, try_catch, request, rule_on.
  destruct (R h (GetContents owner repo p headSha)) as [id|e]; simpl; [reflexivity|].
  destruct (Index.is_404 e); reflexivity.
Qed.

Lemma settle_all_cons {A} (p : Async A) (ps : list (Async A)) (R : Remote) (h : list Event) :
  settle_all (p :: ps) R h =
  match settle_all [p] R h with
  | (Return os1, t1) =>
      match settle_all ps R (h ++ t1)%list with
      | (Return os, t2) => (Return (os1 ++ os)%list, (t1 ++ t2)%list)
      | (Throw e, t2) => (Throw e, (t1 ++ t2)%list)
      end
  | (Throw e, t1) => (Throw e, t1)
  end.
Proof.
  simpl. destruct (p R h) as [o t1]. rewrite app_nil_r.
  destruct (settle_all ps R (h ++ t1)%list) as [[os|e] t2]; reflexivity.
Qed.

Lemma settle_all_targets (ts : list string) (owner repo headSha : string) :
  forall (R : Remote) (h : list Event),
  exists tv,
    settle_all (map (Index.check_target owner repo headSha) ts) R h =
      (Return (map rule_on (contents_answers tv)), tv)
    /\ only_contents tv
    /\ map fst (contents_answers tv) = ts
    /\ requests tv = map (fun p => GetContents owner repo p headSha) ts.
Proof.
  induction ts as [|p ts IH]; intros R h.
  - exists []. repeat split. constructor.
  - cbn [map]. rewrite settle_all_cons, check_target_run.
    destruct (IH R (h ++ [Call (GetContents owner repo p headSha)
                            (R h (GetContents owner repo p headSha))])%list)
      as (tv & Hrun & Honly & Hpaths & Hreq).
    rewrite Hrun.
    exists (Call (GetContents owner repo p headSha)
              (R h (GetContents owner repo p headSha)) :: tv).
    repeat split.
    + constructor; [reflexivity|assumption].
    + simpl. now rewrite Hpaths.
    + simpl. now rewrite Hreq.
Qed.

(** [verify] asks for every target, in order, and returns what the answers
    amount to. *)
Lemma verify_run (ts : list string) (owner repo headSha : string)
    (R : Remote) (h : list Event) :
  exists tv,
    Index.verify ts owner repo headSha R h = (observed tv, tv)
    /\ only_contents tv
    /\ map fst (contents_answers tv) = ts
    /\ requests tv = map (fun p => GetContents owner repo p headSha) ts.
Proof.
  destruct (settle_all_targets ts owner repo headSha R h)
    as (tv & Hrun & Honly & Hpaths & Hreq).
  exists tv. repeat split; try assumption.
  unfold Index.verify, Promise_all, bind, observed. rewrite Hrun.
  destruct (collect (map rule_on (contents_answers tv))) as [xs|e];
    unfold ret, throw; now rewrite app_nil_r.
Qed.

(** ** The runs of the handlers *)

(** Every run of [Index.process] is one of the six of [IndexRun]. *)
Lemma process_run (ts : list string) (installationId : Z)
    (owner repo headSha : string) (prNumber : Z) (R : Remote) (h : list Event)
    (out : Outcome unit) (t : list Event) :
  Index.process ts installationId owner repo headSha prNumber R h = (out, t) ->
  IndexRun ts installationId owner repo headSha prNumber out t.
Proof.
  unfold Index.process, Index.getInstallationOctokit.
  unfold bind at 1. unfold request at 1.
  destruct (R h (Authenticate installationId)) as [a|e];
    [|intros [= <- <-]; apply run_auth_rejected].
  unfold bind at 1. unfold request at 1.
  match goal with |- context [R ?h' (CreateCheckRun ?o ?r ?n ?s ?st)] =>
    destruct (R h' (CreateCheckRun o r n s st)) as [c|e];
      [|intros [= <- <-]; apply run_create_rejected];
    set (h1 := (h' ++ [Call (CreateCheckRun o r n s st) (Resolved c)])%list)
  end.
  unfold try_catch, Index.try_block. unfold bind at 1.
  destruct (verify_run ts owner repo headSha R h1) as (tv & Hrun & Honly & Hpaths & Hreq).
  rewrite Hrun.
  destruct (observed tv) as [ex|e] eqn:Hobs.
  - unfold bind at 1. unfold request at 1.
    match goal with |- context [R ?h' (Index.finalize_verdict ?o ?r ?c' ?x)] =>
      destruct (R h' (Index.finalize_verdict o r c' x)) as [x1|e1]
    end.
    + unfold bind at 1. unfold request at 1.
      match goal with |- context [R ?h' (CreateComment ?o ?r ?n ?b)] =>
        destruct (R h' (CreateComment o r n b)) as [y|e2]
      end.
      * unfold console_log. intros [= <- <-].
        apply (run_verified ts installationId owner repo headSha prNumber c a tv);
          try assumption.
        rewrite Hobs. apply after_commented.
      * unfold Index.catch_block, bind, console_error, try_catch, request, ret.
        match goal with |- context [R ?h' (Index.finalize_error ?o ?r ?c')] =>
          destruct (R h' (Index.finalize_error o r c')) as [z|e3]
        end; intros [= <- <-]; cbn [app];
          rewrite <- !app_assoc; cbn [app];
          apply (run_verified ts installationId owner repo headSha prNumber c a tv);
          try assumption; rewrite Hobs; apply after_comment_rejected.
    + unfold Index.catch_block, bind, console_error, try_catch, request, ret.
      match goal with |- context [R ?h' (Index.finalize_error ?o ?r ?c')] =>
        destruct (R h' (Index.finalize_error o r c')) as [z|e3]
      end; intros [= <- <-]; cbn [app];
        rewrite <- !app_assoc; cbn [app];
        apply (run_verified ts installationId owner repo headSha prNumber c a tv);
        try assumption; rewrite Hobs; apply after_update_rejected.
  - unfold Index.catch_block, bind, console_error, try_catch, request, ret.
    match goal with |- context [R ?h' (Index.finalize_error ?o ?r ?c')] =>
      destruct (R h' (Index.finalize_error o r c')) as [z|e3]
    end; intros [= <- <-]; cbn [app];
      apply (run_verified ts installationId owner repo headSha prNumber c a tv);
      try assumption; rewrite Hobs; apply after_rule_error.
Qed.

(** Every run of [Part000.process] is one of the five of [DemoRun]. *)
Lemma demo_process_run (compliant : bool) (installationId : Z)
    (owner repo headSha : string) (R : Remote) (h : list Event)
    (out : Outcome unit) (t : list Event) :
  Part000.process compliant installationId owner repo headSha R h = (out, t) ->
  DemoRun compliant installationId owner repo headSha out t.
Proof.
  unfold Part000.process, Part000.getInstallationOctokit.
  unfold bind at 1. unfold request at 1.
  destruct (R h (Authenticate installationId)) as [a|e];
    [|intros [= <- <-]; apply demo_auth_rejected].
  unfold bind at 1. unfold request at 1.
  match goal with |- context [R ?h' (CreateCheckRun ?o ?r ?n ?s ?st)] =>
    destruct (R h' (CreateCheckRun o r n s st)) as [c|e];
      [|intros [= <- <-]; apply demo_create_rejected]
  end.
  unfold bind at 1. unfold console_log at 1.
  unfold try_catch, Part000.try_block. unfold bind at 1. unfold request at 1.
  match goal with |- context [R ?h' (Part000.finalize_verdict ?o ?r ?c' ?b)] =>
    destruct (R h' (Part000.finalize_verdict o r c' b)) as [x|e]
  end.
  - unfold console_log. intros [= <- <-]. apply demo_completed.
  - unfold Part000.catch_block, bind, console_error, try_catch, request, ret.
    match goal with |- context [R ?h' (Part000.finalize_error ?o ?r ?c')] =>
      destruct (R h' (Part000.finalize_error o r c')) as [z|e2]
    end; intros [= <- <-]; cbn [app].
    + apply demo_update_rejected.
    + apply demo_both_rejected.
Qed.

(** The guards of [src/index.js]: a dropped payload ends the run at once. *)
Lemma handler_dropped (ts : list string) (p : Payload) (R : Remote) :
  dropped_index p = true ->
  run (Index.handler_on ts p) R =
  (Return tt,
   if includes actionable (action p) then [Console LogLevel "PR event"] else []).
Proof.
  unfold dropped_index, run, Index.handler_on.
  destruct (includes actionable (action p)); cbn [negb orb]; [|reflexivity].
  intros ->. reflexivity.
Qed.

(** A payload that passes the guards is processed with its five fields. *)
Lemma handler_kept (ts : list string) (p : Payload) (R : Remote) :
  dropped_index p = false ->
  exists installationId prNumber out t,
    installation_id p = Some installationId
    /\ owner_login p = Some (owner_of p)
    /\ repository_name p = Some (repo_of p)
    /\ head_sha p = Some (sha_of p)
    /\ number p = Some prNumber
    /\ run (Index.handler_on ts p) R = (out, Console LogLevel "PR event" :: t)
    /\ IndexRun ts installationId (owner_of p) (repo_of p) (sha_of p) prNumber out t.
Proof.
  unfold dropped_index, run, Index.handler_on, owner_of, repo_of, sha_of.
  destruct (includes actionable (action p)); cbn [negb orb]; [|discriminate].
  intros Hkeep. unfold bind at 1. unfold console_log at 1. rewrite Hkeep.
  destruct (installation_id p) as [i|]; [|discriminate].
  destruct (owner_login p) as [o|]; [|cbn in Hkeep; rewrite ?orb_true_r in Hkeep; discriminate].
  destruct (repository_name p) as [r|]; [|cbn in Hkeep; rewrite ?orb_true_r in Hkeep; discriminate].
  destruct (head_sha p) as [s|]; [|cbn in Hkeep; rewrite ?orb_true_r in Hkeep; discriminate].
  destruct (number p) as [n|]; [|cbn in Hkeep; rewrite ?orb_true_r in Hkeep; discriminate].
  cbn [or_empty]. rewrite app_nil_l.
  destruct (Index.process ts i o r s n R [Console LogLevel "PR event"]) as [out t] eqn:Hrun.
  exists i, n, out, t. repeat split. now apply process_run in Hrun.
Qed.

Lemma demo_handler_dropped (compliant : bool) (p : Payload) (R : Remote) :
  dropped_part000 p = true ->
  run (Part000.handler compliant p) R =
  (Return tt,
   if includes actionable (action p)
   then [Console LogLevel "PR event";
         Console ErrorLevel "Missing required fields from webhook payload"]
   else []).
Proof.
  unfold dropped_part000, run, Part000.handler.
  destruct (includes actionable (action p)); cbn [negb orb]; [|reflexivity].
  intros ->. reflexivity.
Qed.

Lemma demo_handler_kept (compliant : bool) (p : Payload) (R : Remote) :
  dropped_part000 p = false ->
  exists installationId out t,
    installation_id p = Some installationId
    /\ owner_login p = Some (owner_of p)
    /\ repository_name p = Some (repo_of p)
    /\ head_sha p = Some (sha_of p)
    /\ run (Part000.handler compliant p) R = (out, Console LogLevel "PR event" :: t)
    /\ DemoRun compliant installationId (owner_of p) (repo_of p) (sha_of p) out t.
Proof.
  unfold dropped_part000, run, Part000.handler, owner_of, repo_of, sha_of.
  destruct (includes actionable (action p)); cbn [negb orb]; [|discriminate].
  intros Hkeep. unfold bind at 1. unfold console_log at 1. rewrite Hkeep.
  destruct (installation_id p) as [i|]; [|discriminate].
  destruct (owner_login p) as [o|]; [|cbn in Hkeep; rewrite ?orb_true_r in Hkeep; discriminate].
  destruct (repository_name p) as [r|]; [|cbn in Hkeep; rewrite ?orb_true_r in Hkeep; discriminate].
  destruct (head_sha p) as [s|]; [|cbn in Hkeep; rewrite ?orb_true_r in Hkeep; discriminate].
  cbn [or_empty]. rewrite app_nil_l.
  destruct (Part000.process compliant i o r s R [Console LogLevel "PR event"])
    as [out t] eqn:Hrun.
  exists i, out, t. repeat split. now apply demo_process_run in Hrun.
Qed.

Create Rewrite HintDb trace.

#[local] Hint Rewrite requests_app updates_app comments_app rejected_app
  contents_answers_app created_id_app answers_app : trace.

(** Splits a run of a handler of [src/index.js] into the dropped payloads
    and the runs of [IndexRun]. *)
Ltac index_runs ts p R :=
  unfold trace, outcome;
  let Hd := fresh "Hdrop" in
  destruct (dropped_index p) eqn:Hd;
  [ rewrite (handler_dropped ts p R Hd)
  | let i := fresh "i" in
    let n := fresh "n" in
    let out := fresh "out" in
    let t := fresh "t" in
    let Hi := fresh "Hi" in
    let Ho := fresh "Ho" in
    let Hr := fresh "Hr" in
    let Hs := fresh "Hs" in
    let Hn := fresh "Hn" in
    let Hrun := fresh "Hrun" in
    let Hshape := fresh "Hshape" in
    destruct (handler_kept ts p R Hd)
      as (i & n & out & t & Hi & Ho & Hr & Hs & Hn & Hrun & Hshape);
    rewrite Hrun; cbn [fst snd] ].

Ltac demo_runs b p R :=
  unfold trace, outcome;
  let Hd := fresh "Hdrop" in
  destruct (dropped_part000 p) eqn:Hd;
  [ rewrite (demo_handler_dropped b p R Hd)
  | let i := fresh "i" in
    let out := fresh "out" in
    let t := fresh "t" in
    let Hi := fresh "Hi" in
    let Ho := fresh "Ho" in
    let Hr := fresh "Hr" in
    let Hs := fresh "Hs" in
    let Hrun := fresh "Hrun" in
    let Hshape := fresh "Hshape" in
    destruct (demo_handler_kept b p R Hd)
      as (i & out & t & Hi & Ho & Hr & Hs & Hrun & Hshape);
    rewrite Hrun; cbn [fst snd] ].

(** The trace of a verified run, read through the usual observers. *)
Ltac read_verified Honly :=
  repeat match goal with
  | |- context [(?x :: [?a; ?b] ++ ?tv ++ ?rest)%list] =>
      change (x :: [a; b] ++ tv ++ rest)%list with ([x; a; b] ++ tv ++ rest)%list
  | H : context [(?x :: [?a; ?b] ++ ?tv ++ ?rest)%list] |- _ =>
      change (x :: [a; b] ++ tv ++ rest)%list with ([x; a; b] ++ tv ++ rest)%list in H
  end;
  autorewrite with trace in *;
  rewrite ?(only_contents_updates _ Honly), ?(only_contents_comments _ Honly),
    ?(only_contents_created _ Honly),
    ?(only_contents_rejected is_authenticate _ Honly),
    ?(only_contents_rejected is_create _ Honly),
    ?(only_contents_rejected is_update _ Honly),
    ?(only_contents_rejected is_comment _ Honly),
    ?(only_contents_answers is_update _ Honly),
    ?(only_contents_answers is_comment _ Honly) in * by reflexivity.

(** ** Failures before the check run exists *)

(** C8. When authentication or the creation of the check run is rejected,
    the handler (either variant) throws that error and has sent nothing but
    the requests up to the rejected one: no check-run update and no comment. *)
Theorem C8_abort_before_creation (R : Remote) (p : Payload) (compliant : bool) :
  (rejected is_authenticate (trace (Index.handler p) R)
   || rejected is_create (trace (Index.handler p) R) = true ->
   (exists e, outcome (Index.handler p) R = Throw e)
   /\ (exists i,
         requests (trace (Index.handler p) R) = [Authenticate i]
         \/ requests (trace (Index.handler p) R) =
            [Authenticate i;
             CreateCheckRun (owner_of p) (repo_of p) "Compliance" (sha_of p) "in_progress"])
   /\ created_id (trace (Index.handler p) R) = None
   /\ updates (trace (Index.handler p) R) = []
   /\ comments (trace (Index.handler p) R) = [])
  /\
  (rejected is_authenticate (trace (Part000.handler compliant p) R)
   || rejected is_create (trace (Part000.handler compliant p) R) = true ->
   (exists e, outcome (Part000.handler compliant p) R = Throw e)
   /\ (exists i,
         requests (trace (Part000.handler compliant p) R) = [Authenticate i]
         \/ requests (trace (Part000.handler compliant p) R) =
            [Authenticate i;
             CreateCheckRun (owner_of p) (repo_of p) "Compliance" (sha_of p) "in_progress"])
   /\ created_id (trace (Part000.handler compliant p) R) = None
   /\ updates (trace (Part000.handler compliant p) R) = []
   /\ comments (trace (Part000.handler compliant p) R) = []).
Proof.
  split.
  - unfold Index.handler. index_runs Index.targets p R.
    + destruct (includes actionable (action p)); discriminate.
    + destruct Hshape as [e|a e|c a tv rest Honly Hpaths Hreq Hafter].
      * intros _. repeat split; eauto. exists i. now left.
      * intros _. repeat split; eauto. exists i. now right.
      * read_verified Honly.
        destruct Hafter as [e0 [z|e1]|ex e0 [z|e1]|ex x e0 [z|e1]|ex x y]; discriminate.
  - demo_runs compliant p R.
    + destruct (includes actionable (action p)); discriminate.
    + destruct Hshape; try discriminate; intros _; repeat split; eauto;
        exists i; [now left|now right].
Qed.

Lemma C8_abort_before_creation_witness :
  (rejected is_authenticate (trace (Index.handler pr_opened) remote_create_rejected)
   || rejected is_create (trace (Index.handler pr_opened) remote_create_rejected) = true)
  /\ (exists e, outcome (Index.handler pr_opened) remote_create_rejected = Throw e)
  /\ updates (trace (Index.handler pr_opened) remote_create_rejected) = []
  /\ (rejected is_authenticate (trace (Part000.handler true pr_opened) remote_auth_rejected)
      || rejected is_create (trace (Part000.handler true pr_opened) remote_auth_rejected)
      = true)
  /\ updates (trace (Part000.handler true pr_opened) remote_auth_rejected) = [].
Proof.
  split; [reflexivity|].
  split; [apply (proj1 (C8_abort_before_creation remote_create_rejected pr_opened true));
          reflexivity|].
  split; [apply (proj1 (C8_abort_before_creation remote_create_rejected pr_opened true));
          reflexivity|].
  split; [reflexivity|].
  apply (proj2 (C8_abort_before_creation remote_auth_rejected pr_opened true)).
  reflexivity.
Defined.

(** ** The event filter *)

(** C6, as the code has it.  A handler sends no request, and returns, exactly
    when its filter drops the payload: the action is not one of opened,
    reopened, synchronize, or the installation id, owner login, repository
    name or head SHA is missing (absent, zero or empty), or, in
    [src/index.js] only, the pull-request number is missing.  Every other
    payload is authenticated first and, once that resolved, the creation of
    the check run is requested. *)
Theorem C6_filter_decides_remote_calls (R : Remote) (p : Payload) (compliant : bool) :
  (requests (trace (Index.handler p) R) = [] <-> dropped_index p = true)
  /\ (dropped_index p = true -> outcome (Index.handler p) R = Return tt)
  /\ (dropped_index p = false ->
      exists i rest,
        installation_id p = Some i
        /\ requests (trace (Index.handler p) R) = Authenticate i :: rest
        /\ (rejected is_authenticate (trace (Index.handler p) R) = false ->
            exists rest',
              rest = CreateCheckRun (owner_of p) (repo_of p) "Compliance" (sha_of p)
                       "in_progress" :: rest'))
  /\ (requests (trace (Part000.handler compliant p) R) = [] <-> dropped_part000 p = true)
  /\ (dropped_part000 p = true -> outcome (Part000.handler compliant p) R = Return tt)
  /\ (dropped_part000 p = false ->
      exists i rest,
        installation_id p = Some i
        /\ requests (trace (Part000.handler compliant p) R) = Authenticate i :: rest
        /\ (rejected is_authenticate (trace (Part000.handler compliant p) R) = false ->
            exists rest',
              rest = CreateCheckRun (owner_of p) (repo_of p) "Compliance" (sha_of p)
                       "in_progress" :: rest')).
Proof.
  repeat split.
  - unfold Index.handler. index_runs Index.targets p R; [reflexivity|].
    destruct Hshape; discriminate.
  - intros Hd. unfold Index.handler, trace.
    rewrite (handler_dropped Index.targets p R Hd).
    destruct (includes actionable (action p)); reflexivity.
  - intros Hd. unfold outcome, Index.handler.
    now rewrite (handler_dropped Index.targets p R Hd).
  - intros Hd. unfold Index.handler, trace.
    destruct (handler_kept Index.targets p R Hd)
      as (i & n & out & t & Hi & Ho & Hr & Hs & Hn & Hrun & Hshape).
    rewrite Hrun. cbn [snd]. exists i.
    destruct Hshape; cbn [requests app]; eexists; (split; [assumption|]);
      (split; [reflexivity|]); try discriminate; intros _; eexists; reflexivity.
  - demo_runs compliant p R; [reflexivity|]. destruct Hshape; discriminate.
  - intros Hd. unfold trace. rewrite (demo_handler_dropped compliant p R Hd).
    destruct (includes actionable (action p)); reflexivity.
  - intros Hd. unfold outcome. now rewrite (demo_handler_dropped compliant p R Hd).
  - intros Hd. unfold trace.
    destruct (demo_handler_kept compliant p R Hd)
      as (i & out & t & Hi & Ho & Hr & Hs & Hrun & Hshape).
    rewrite Hrun. cbn [snd]. exists i.
    destruct Hshape; cbn [requests app]; eexists; (split; [assumption|]);
      (split; [reflexivity|]); try discriminate; intros _; eexists; reflexivity.
Qed.

Lemma C6_filter_decides_remote_calls_witness :
  dropped_index pr_without_sha = true
  /\ outcome (Index.handler pr_without_sha) remote_ok = Return tt
  /\ dropped_part000 pr_without_number = false
  /\ exists i rest,
       installation_id pr_without_number = Some i
       /\ requests (trace (Part000.handler false pr_without_number) remote_ok)
          = Authenticate i :: rest
       /\ (rejected is_authenticate
             (trace (Part000.handler false pr_without_number) remote_ok) = false ->
           exists rest',
             rest = CreateCheckRun (owner_of pr_without_number) (repo_of pr_without_number)
                      "Compliance" (sha_of pr_without_number) "in_progress" :: rest').
Proof.
  split; [reflexivity|].
  split.
  - apply (C6_filter_decides_remote_calls remote_ok pr_without_sha false). reflexivity.
  - split; [reflexivity|].
    apply (C6_filter_decides_remote_calls remote_ok pr_without_number false). reflexivity.
Defined.

(** C6, as stated, fails on [src/index.js]: an opened pull request whose
    payload carries the installation id, owner, repository and head SHA, but
    no number, is dropped without a request. *)
Lemma C6_counterexample :
  includes actionable (action pr_without_number) = true
  /\ falsyZ (installation_id pr_without_number) = false
  /\ falsyS (owner_login pr_without_number) = false
  /\ falsyS (repository_name pr_without_number) = false
  /\ falsyS (head_sha pr_without_number) = false
  /\ run (Index.handler pr_without_number) remote_ok
     = (Return tt, [Console LogLevel "PR event"])
  /\ requests (trace (Index.handler pr_without_number) remote_ok) = [].
Proof. repeat split. Qed.

(** C9. In [src/index.js] the filter also requires the pull-request number:
    an actionable payload with the installation id, owner login, repository
    name and head SHA present but [payload.number] absent or zero is dropped
    before any request, whereas the filter of the other variant lets it
    through to authentication. *)
Theorem C9_number_required (R : Remote) (p : Payload) (compliant : bool) :
  includes actionable (action p) = true ->
  falsyZ (installation_id p) = false ->
  falsyS (owner_login p) = false ->
  falsyS (repository_name p) = false ->
  falsyS (head_sha p) = false ->
  falsyZ (number p) = true ->
  run (Index.handler p) R = (Return tt, [Console LogLevel "PR event"])
  /\ requests (trace (Index.handler p) R) = []
  /\ exists i rest,
       requests (trace (Part000.handler compliant p) R) = Authenticate i :: rest.
Proof.
  intros Ha Hi Ho Hr Hs Hn.
  assert (Hd : dropped_index p = true).
  { unfold dropped_index. rewrite Hn. now rewrite !orb_true_r. }
  assert (Hk : dropped_part000 p = false).
  { unfold dropped_part000. now rewrite Ha, Hi, Ho, Hr, Hs. }
  unfold Index.handler, trace.
  rewrite (handler_dropped Index.targets p R Hd), Ha.
  repeat split.
  destruct (demo_handler_kept compliant p R Hk)
    as (i & out & t & _ & _ & _ & _ & Hrun & Hshape).
  rewrite Hrun. exists i. destruct Hshape; eexists; reflexivity.
Qed.

Lemma C9_number_required_witness :
  falsyZ (number pr_without_number) = true
  /\ run (Index.handler pr_without_number) remote_ok
     = (Return tt, [Console LogLevel "PR event"])
  /\ requests (trace (Index.handler pr_without_number) remote_ok) = []
  /\ exists i rest,
       requests (trace (Part000.handler true pr_without_number) remote_ok)
       = Authenticate i :: rest.
Proof.
  split; [reflexivity|].
  apply (C9_number_required remote_ok pr_without_number true); reflexivity.
Defined.

(** ** Runs in which the check run was created *)

Lemma after_no_contents (owner repo : string) (prNumber : Z) (headSha : string)
    (c : Z) (v : Outcome (list RuleResult)) (rest : list Event) :
  IndexAfter owner repo prNumber headSha c v rest -> contents_answers rest = [].
Proof. intros H. destruct H; reflexivity. Qed.

(** Once the creation resolved with identifier [c], the run of the handler of
    [src/index.js] returns, and its trace is the logged event, the two
    resolved calls, the contents queries and one of the four endings. *)
Lemma index_created (ts : list string) (R : Remote) (p : Payload) (c : Z) :
  created_id (trace (Index.handler_on ts p) R) = Some c ->
  exists i n a tv rest,
    run (Index.handler_on ts p) R =
      (Return tt,
       ([Console LogLevel "PR event";
         Call (Authenticate i) (Resolved a);
         Call (CreateCheckRun (owner_of p) (repo_of p) "Compliance" (sha_of p)
                 "in_progress") (Resolved c)] ++ tv ++ rest)%list)
    /\ number p = Some n
    /\ only_contents tv
    /\ map fst (contents_answers tv) = ts
    /\ contents_answers (trace (Index.handler_on ts p) R) = contents_answers tv
    /\ IndexAfter (owner_of p) (repo_of p) n (sha_of p) c (observed tv) rest.
Proof.
  index_runs ts p R.
  - destruct (includes actionable (action p)); discriminate.
  - destruct Hshape as [e|a e|c' a tv rest Honly Hpaths Hreq Hafter]; try discriminate.
    intros Hc.
    assert (c' = c) as ->.
    { change (created_id ([Console LogLevel "PR event";
                Call (Authenticate i) (Resolved a);
                Call (CreateCheckRun (owner_of p) (repo_of p) "Compliance" (sha_of p)
                        "in_progress") (Resolved c')] ++ tv ++ rest)%list = Some c) in Hc.
      rewrite created_id_app in Hc. cbn in Hc. congruence. }
    exists i, n, a, tv, rest. repeat split; try assumption.
    change (Console LogLevel "PR event"
              :: [Call (Authenticate i) (Resolved a);
                  Call (CreateCheckRun (owner_of p) (repo_of p) "Compliance" (sha_of p)
                          "in_progress") (Resolved c)] ++ tv ++ rest)%list
      with ([Console LogLevel "PR event";
             Call (Authenticate i) (Resolved a);
             Call (CreateCheckRun (owner_of p) (repo_of p) "Compliance" (sha_of p)
                     "in_progress") (Resolved c)] ++ tv ++ rest)%list.
    rewrite !contents_answers_app, (after_no_contents _ _ _ _ _ _ _ Hafter).
    cbn [contents_answers app]. now rewrite app_nil_r.
Qed.

(** The same for the demonstration variant: after the creation the run
    returns, with the verdict update alone or followed by the error update. *)
Lemma demo_created (R : Remote) (p : Payload) (compliant : bool) (c : Z) :
  created_id (trace (Part000.handler compliant p) R) = Some c ->
  outcome (Part000.handler compliant p) R = Return tt
  /\ ((exists x,
         updates (trace (Part000.handler compliant p) R) =
           [Part000.finalize_verdict (owner_of p) (repo_of p) c compliant]
         /\ answers is_update (trace (Part000.handler compliant p) R) = [Resolved x])
      \/ (exists e a,
            updates (trace (Part000.handler compliant p) R) =
              [Part000.finalize_verdict (owner_of p) (repo_of p) c compliant;
               Part000.finalize_error (owner_of p) (repo_of p) c]
            /\ answers is_update (trace (Part000.handler compliant p) R) = [Rejected e; a])).
Proof.
  demo_runs compliant p R.
  - destruct (includes actionable (action p)); discriminate.
  - destruct Hshape; try discriminate; intros [= ->]; (split; [reflexivity|]).
    + left. eexists. split; reflexivity.
    + right. do 2 eexists. split; reflexivity.
    + right. do 2 eexists. split; reflexivity.
Qed.

(** The four endings of a run of [src/index.js] after the creation, read
    through the observers: a rule error, a rejected verdict update, a
    rejected comment post, and the run that completes. *)
Lemma index_endings (ts : list string) (R : Remote) (p : Payload) (c : Z) :
  let t := trace (Index.handler_on ts p) R in
  let fv := Index.finalize_verdict (owner_of p) (repo_of p) c in
  let fe := Index.finalize_error (owner_of p) (repo_of p) c in
  created_id t = Some c ->
  outcome (Index.handler_on ts p) R = Return tt
  /\ map fst (contents_answers t) = ts
  /\ ((exists e a,
         observed t = Throw e
         /\ updates t = [fe] /\ answers is_update t = [a]
         /\ comments t = [] /\ rejected is_comment t = false)
      \/ (exists ex e a,
            observed t = Return ex
            /\ updates t = [fv ex; fe] /\ answers is_update t = [Rejected e; a]
            /\ comments t = [] /\ rejected is_comment t = false)
      \/ (exists ex x e a n,
            observed t = Return ex
            /\ updates t = [fv ex; fe] /\ answers is_update t = [Resolved x; a]
            /\ comments t = [CreateComment (owner_of p) (repo_of p) n (Index.renderComment ex)]
            /\ answers is_comment t = [Rejected e]
            /\ rejected is_comment t = true)
      \/ (exists ex x y n,
            observed t = Return ex
            /\ updates t = [fv ex] /\ answers is_update t = [Resolved x]
            /\ comments t = [CreateComment (owner_of p) (repo_of p) n (Index.renderComment ex)]
            /\ answers is_comment t = [Resolved y]
            /\ rejected is_comment t = false)).
Proof.
  intros t fv fe Hc. subst t fv fe.
  destruct (index_created ts R p c Hc)
    as (i & n & a & tv & rest & Hrun & Hn & Honly & Hpaths & Hans & Hafter).
  unfold observed. rewrite Hans. fold (observed tv).
  unfold trace, outcome. rewrite Hrun. cbn [fst snd].
  split; [reflexivity|]. split; [assumption|].
  rewrite !updates_app, !comments_app, !answers_app, !rejected_app.
  rewrite (only_contents_updates _ Honly), (only_contents_comments _ Honly),
    !(only_contents_answers _ _ Honly), (only_contents_rejected _ _ Honly)
    by reflexivity.
  destruct Hafter as [e0 a0|ex e0 a0|ex x e0 a0|ex x y].
  - left. exists e0, a0. destruct a0; repeat split.
  - right; left. exists ex, e0, a0. destruct a0; repeat split.
  - right; right; left. exists ex, x, e0, a0, n. destruct a0; repeat split.
  - right; right; right. exists ex, x, y, n. repeat split.
Qed.

(** ** Finalization *)

(** C1, as the code has it.  After a creation that resolved, the handler
    returns normally and has sent at least one check-run update.  Unless the
    comment post was rejected, the updates are: the error report alone when a
    rule threw; the report of the computed verdict alone when that update
    resolved; the report of the computed verdict followed by the error
    report when the first update was itself rejected.  The demonstration
    variant, which has no rule that throws and no comment, sends the verdict
    update alone or, when it was rejected, followed by the error update. *)
Theorem C1_finalize_after_create (R : Remote) (p : Payload) (compliant : bool) (c : Z) :
  (created_id (trace (Index.handler p) R) = Some c ->
   outcome (Index.handler p) R = Return tt
   /\ (exists u rest, updates (trace (Index.handler p) R) = u :: rest)
   /\ (rejected is_comment (trace (Index.handler p) R) = false ->
       (exists e,
          observed (trace (Index.handler p) R) = Throw e
          /\ updates (trace (Index.handler p) R) =
             [Index.finalize_error (owner_of p) (repo_of p) c])
       \/ (exists ex x,
             observed (trace (Index.handler p) R) = Return ex
             /\ updates (trace (Index.handler p) R) =
                [Index.finalize_verdict (owner_of p) (repo_of p) c ex]
             /\ answers is_update (trace (Index.handler p) R) = [Resolved x])
       \/ (exists ex e a,
             observed (trace (Index.handler p) R) = Return ex
             /\ updates (trace (Index.handler p) R) =
                [Index.finalize_verdict (owner_of p) (repo_of p) c ex;
                 Index.finalize_error (owner_of p) (repo_of p) c]
             /\ answers is_update (trace (Index.handler p) R) = [Rejected e; a])))
  /\
  (created_id (trace (Part000.handler compliant p) R) = Some c ->
   outcome (Part000.handler compliant p) R = Return tt
   /\ ((exists x,
          updates (trace (Part000.handler compliant p) R) =
            [Part000.finalize_verdict (owner_of p) (repo_of p) c compliant]
          /\ answers is_update (trace (Part000.handler compliant p) R) = [Resolved x])
       \/ (exists e a,
             updates (trace (Part000.handler compliant p) R) =
               [Part000.finalize_verdict (owner_of p) (repo_of p) c compliant;
                Part000.finalize_error (owner_of p) (repo_of p) c]
             /\ answers is_update (trace (Part000.handler compliant p) R)
                = [Rejected e; a]))).
Proof.
  split; [|apply demo_created].
  unfold Index.handler. intros Hc.
  destruct (index_endings Index.targets R p c Hc) as (Hout & _ & Hend).
  split; [assumption|].
  destruct Hend as [(e & a & Hobs & Hup & Hans & Hcom & Hrej)
                   |[(ex & e & a & Hobs & Hup & Hans & Hcom & Hrej)
                   |[(ex & x & e & a & n & Hobs & Hup & Hans & Hcom & Hca & Hrej)
                   |(ex & x & y & n & Hobs & Hup & Hans & Hcom & Hca & Hrej)]]];
    rewrite Hup, Hobs, Hans, Hrej; (split; [do 2 eexists; reflexivity|]).
  - intros _. left. exists e. now split.
  - intros _. right; right. exists ex, e, a. now repeat split.
  - discriminate.
  - intros _. right; left. exists ex, x. now repeat split.
Qed.

Lemma C1_finalize_after_create_witness :
  created_id (trace (Index.handler pr_opened) remote_readme_fault) = Some 42%Z
  /\ outcome (Index.handler pr_opened) remote_readme_fault = Return tt
  /\ created_id (trace (Part000.handler true pr_opened) remote_ok) = Some 42%Z
  /\ outcome (Part000.handler true pr_opened) remote_ok = Return tt.
Proof.
  split; [reflexivity|].
  split; [apply (proj1 (C1_finalize_after_create remote_readme_fault pr_opened true 42));
          reflexivity|].
  split; [reflexivity|].
  apply (proj2 (C1_finalize_after_create remote_ok pr_opened true 42)).
  reflexivity.
Defined.

(** C1, as stated, fails: when the update that carries the computed verdict
    is rejected, the [catch] block sends a second update.  Here the creation
    resolved, no rule threw and no comment was attempted, yet two updates
    were sent, in either variant. *)
Lemma C1_counterexample :
  created_id (trace (Part000.handler true pr_opened) remote_first_update_rejected)
    = Some 42%Z
  /\ updates (trace (Part000.handler true pr_opened) remote_first_update_rejected)
     = [Part000.finalize_verdict "octo" "demo" 42 true;
        Part000.finalize_error "octo" "demo" 42]
  /\ created_id (trace (Index.handler pr_opened) remote_first_update_rejected)
     = Some 42%Z
  /\ existsb unexpected
       (contents_answers (trace (Index.handler pr_opened) remote_first_update_rejected))
     = false
  /\ comments (trace (Index.handler pr_opened) remote_first_update_rejected) = []
  /\ length (updates (trace (Index.handler pr_opened) remote_first_update_rejected)) = 2
  /\ conclusions (updates (trace (Index.handler pr_opened) remote_first_update_rejected))
     = ["success"; "failure"].
Proof. repeat split. Qed.

(** ** The conclusion *)

Lemma conclusion_success_iff (existence : list RuleResult) :
  Index.conclusion_of existence = "success"
  <-> forall x, In x existence -> pass x = true.
Proof.
  unfold Index.conclusion_of, Index.allPass. rewrite <- forallb_forall.
  destruct (forallb pass existence); split; intros H; try reflexivity; discriminate.
Qed.

Lemma demo_conclusion_success_iff (compliant : bool) :
  Part000.conclusion_of compliant = "success"
  <-> forall x, In x (Part000.checks compliant) -> pass x = true.
Proof.
  rewrite <- forallb_forall. destruct compliant; cbn; split; intros H;
    try reflexivity; discriminate.
Qed.

(** ** The required-file rule *)

Lemma is_404_spec (e : Error) : Index.is_404 e = true <-> e = Some 404%Z.
Proof.
  destruct e as [s|]; simpl; [|split; discriminate].
  rewrite Z.eqb_eq. split; [now intros ->|now intros [= ->]].
Qed.

(** Answers that are all resolved or 404 amount to one row each. *)
Lemma collect_normal (l : list (string * Response)) :
  existsb unexpected l = false ->
  collect (map rule_on l) = Return (map row_of l).
Proof.
  induction l as [|[path a] l IH]; [reflexivity|].
  cbn [existsb map]. intros H. apply orb_false_elim in H. destruct H as [Ha Hl].
  cbn [collect]. unfold rule_on, row_of, unexpected in *. cbn [fst snd] in *.
  destruct a as [id|e].
  - now rewrite (IH Hl).
  - apply negb_false_iff in Ha. rewrite Ha. now rewrite (IH Hl).
Qed.

(** One unexpected answer makes the verdict an error. *)
Lemma collect_unexpected (l : list (string * Response)) :
  existsb unexpected l = true ->
  exists e, collect (map rule_on l) = Throw e.
Proof.
  induction l as [|[path a] l IH]; [discriminate|].
  cbn [existsb map collect]. unfold rule_on at 1. unfold unexpected at 1. cbn [fst snd].
  destruct a as [id|e]; cbn [orb].
  - intros H. destruct (IH H) as [e He]. rewrite He. now exists e.
  - destruct (Index.is_404 e); cbn [negb orb].
    + intros H. destruct (IH H) as [e' He]. rewrite He. now exists e'.
    + intros _. now exists e.
Qed.

(** C5. [fileExists] turns a 404 into [false] and rethrows any other
    rejection.  In a run after the creation: when every contents query
    resolved or met a 404, the verdict holds one row per query (one query
    per target, in order), a 404 giving [pass = false], and is sent in the
    first update; when some query met
    another rejection, there is no verdict, the only update is the error
    report and no comment is posted. *)
Theorem C5_not_found_is_normal (R : Remote) (p : Payload) (c : Z)
    (owner repo path ref : string) (h : list Event) :
  (R h (GetContents owner repo path ref) = Rejected (Some 404%Z) ->
   Index.fileExists owner repo path ref R h
   = (Return false, [Call (GetContents owner repo path ref) (Rejected (Some 404%Z))]))
  /\ (forall e,
        R h (GetContents owner repo path ref) = Rejected e ->
        e <> Some 404%Z ->
        Index.fileExists owner repo path ref R h
        = (Throw e, [Call (GetContents owner repo path ref) (Rejected e)]))
  /\ (created_id (trace (Index.handler p) R) = Some c ->
      map fst (contents_answers (trace (Index.handler p) R)) = Index.targets
      /\
      (existsb unexpected (contents_answers (trace (Index.handler p) R)) = false ->
       observed (trace (Index.handler p) R)
       = Return (map row_of (contents_answers (trace (Index.handler p) R)))
       /\ exists rest,
            updates (trace (Index.handler p) R)
            = Index.finalize_verdict (owner_of p) (repo_of p) c
                (map row_of (contents_answers (trace (Index.handler p) R))) :: rest)
      /\ (existsb unexpected (contents_answers (trace (Index.handler p) R)) = true ->
          (exists e, observed (trace (Index.handler p) R) = Throw e)
          /\ updates (trace (Index.handler p) R)
             = [Index.finalize_error (owner_of p) (repo_of p) c]
          /\ comments (trace (Index.handler p) R) = [])).
Proof.
  split; [|split].
  - intros Ha. unfold Index.fileExists, try_catch, bind, request. now rewrite Ha.
  - intros e Ha Hne. unfold Index.fileExists, try_catch, bind, request. rewrite Ha.
    destruct (Index.is_404 e) eqn:H404; [|reflexivity].
    apply is_404_spec in H404. contradiction.
  - unfold Index.handler. intros Hc.
    destruct (index_endings Index.targets R p c Hc) as (_ & Hpaths & Hend).
    split; [exact Hpaths|]. split.
    + intros Hnormal. pose proof (collect_normal _ Hnormal) as Hv.
      fold (observed (trace (Index.handler_on Index.targets p) R)) in Hv.
      split; [assumption|].
      destruct Hend as [(e & a & Hobs & Hup & _)
                       |[(ex & e & a & Hobs & Hup & _)
                       |[(ex & x & e & a & n & Hobs & Hup & _)
                       |(ex & x & y & n & Hobs & Hup & _)]]];
        rewrite Hobs in Hv; try discriminate; injection Hv as <-;
        rewrite Hup; eexists; reflexivity.
    + intros Hbad. destruct (collect_unexpected _ Hbad) as [e He].
      fold (observed (trace (Index.handler_on Index.targets p) R)) in He.
      split; [now exists e|].
      destruct Hend as [(e' & a & Hobs & Hup & _ & Hcom & _)
                       |[(ex & e' & a & Hobs & _)
                       |[(ex & x & e' & a & n & Hobs & _)
                       |(ex & x & y & n & Hobs & _)]]];
        rewrite Hobs in He; try discriminate.
      now split.
Qed.

Lemma C5_not_found_is_normal_witness :
  remote_contributing_absent [] (GetContents "octo" "demo" "CONTRIBUTING.md" "abc123")
    = Rejected (Some 404%Z)
  /\ Index.fileExists "octo" "demo" "CONTRIBUTING.md" "abc123" remote_contributing_absent []
     = (Return false,
        [Call (GetContents "octo" "demo" "CONTRIBUTING.md" "abc123")
           (Rejected (Some 404%Z))])
  /\ created_id (trace (Index.handler pr_opened) remote_contributing_absent) = Some 42%Z
  /\ existsb unexpected
       (contents_answers (trace (Index.handler pr_opened) remote_contributing_absent))
     = false
  /\ observed (trace (Index.handler pr_opened) remote_contributing_absent)
     = Return
         (map row_of
            (contents_answers (trace (Index.handler pr_opened) remote_contributing_absent))).
Proof.
  split; [reflexivity|].
  split.
  - apply (C5_not_found_is_normal remote_contributing_absent pr_opened 42
             "octo" "demo" "CONTRIBUTING.md" "abc123" []).
    reflexivity.
  - split; [reflexivity|]. split; [reflexivity|].
    apply (C5_not_found_is_normal remote_contributing_absent pr_opened 42
             "octo" "demo" "CONTRIBUTING.md" "abc123" []); reflexivity.
Defined.

(** ** Reports as a function of the answers *)

(** C4, as stated, fails on the demonstration variant: the same payload and
    the same remote give a passing report on one draw of [Math.random] and a
    failing one on another. *)
Lemma C4_counterexample :
  reports (updates (trace (Part000.handler true pr_opened) remote_ok))
  = [("success",
      {| title := "Compliance: PASSED";
         summary := "3 / 3 checks passed";
         text := "### Checks" ++ nl ++ Part000.table_of (Part000.checks true) |})]
  /\ reports (updates (trace (Part000.handler false pr_opened) remote_ok))
     = [("failure",
         {| title := "Compliance: FAILED";
            summary := "2 / 3 checks passed";
            text := "### Checks" ++ nl ++ Part000.table_of (Part000.checks false) |})]
  /\ requests (trace (Part000.handler true pr_opened) remote_ok)
     <> requests (trace (Part000.handler false pr_opened) remote_ok).
Proof. repeat split. discriminate. Qed.

(** ** The comment *)

Lemma append_assoc (a b c : string) : (a ++ b) ++ c = a ++ b ++ c.
Proof. induction a as [|ch a IH]; simpl; [reflexivity|now rewrite IH]. Qed.

Lemma append_empty_r (a : string) : a ++ "" = a.
Proof. induction a as [|ch a IH]; simpl; [reflexivity|now rewrite IH]. Qed.

Lemma occurs_in_refl (s : string) : occurs_in s s.
Proof. exists "", "". simpl. now rewrite append_empty_r. Qed.

Lemma occurs_in_context (t s a b : string) :
  occurs_in t s -> occurs_in t (a ++ s ++ b).
Proof.
  intros (pre & post & ->). exists (a ++ pre), (post ++ b).
  now rewrite !append_assoc.
Qed.

Lemma occurs_in_suffix (t s a : string) :
  occurs_in t s -> occurs_in t (a ++ s).
Proof.
  intros (pre & post & ->). exists (a ++ pre), post. now rewrite append_assoc.
Qed.

(** Every joined element occurs in the joined string. *)
Lemma join_occurs (sep x : string) (xs : list string) :
  In x xs -> occurs_in x (join sep xs).
Proof.
  unfold join. induction xs as [|y ys IH]; [contradiction|].
  intros [->|Hin].
  - destruct ys as [|z zs]; cbn [String.concat].
    + apply occurs_in_refl.
    + exists "", (sep ++ String.concat sep (z :: zs)). reflexivity.
  - destruct ys as [|z zs]; [contradiction|].
    change (String.concat sep (y :: z :: zs))
      with (y ++ sep ++ String.concat sep (z :: zs)).
    destruct (IH Hin) as (pre & post & ->).
    exists (y ++ sep ++ pre), post. now rewrite !append_assoc.
Qed.

(** [missing.length === 0] holds exactly when every row passes. *)
Lemma no_missing_iff_all_pass (rows : list RuleResult) :
  Nat.eqb (length (map name (filter (fun r => negb (pass r)) rows))) 0
  = Index.allPass rows.
Proof.
  unfold Index.allPass. induction rows as [|r rows IH]; [reflexivity|].
  cbn [filter forallb]. destruct (pass r); cbn [negb andb]; [assumption|reflexivity].
Qed.

(** C7. The comment of a verdict whose rows all pass is the PASSED header,
    a blank line and the table, and no row is listed as missing.  Otherwise
    it is the FAILED header with the names of exactly the failing rows, in
    order, joined by a comma and a space, then a blank line and the table; so
    the name of every failing row occurs in it.  The table is the two header
    lines followed by one line per row, in the order of the rows, each line
    giving the name of its row, Present or Missing as the row passes or not,
    and its notes; the line of every row occurs in the comment. *)
Theorem C7_comment_of_verdict (rows : list RuleResult) :
  (Index.allPass rows = true ->
   Index.renderComment rows
   = "✅ **Compliance PASSED** — All required files are present."
       ++ nl ++ nl ++ Index.renderTable rows
   /\ filter (fun r => negb (pass r)) rows = [])
  /\ (Index.allPass rows = false ->
      Index.renderComment rows
      = "❌ **Compliance FAILED** — Missing: "
          ++ join ", " (map name (filter (fun r => negb (pass r)) rows))
          ++ nl ++ nl ++ Index.renderTable rows
      /\ forall r, In r rows -> pass r = false ->
                   occurs_in (name r) (Index.renderComment rows))
  /\ Index.renderTable rows
     = "| Check | Result | Notes |" ++ nl ++ "|---|---|---|" ++ nl
         ++ join nl
              (map (fun r =>
                      "| " ++ name r ++ " | "
                        ++ (if pass r then "✅ Present" else "❌ Missing")
                        ++ " | "
                        ++ match notes r with Some s => s | None => EmptyString end
                        ++ " |")
                 rows)
  /\ (forall r, In r rows ->
       occurs_in
         ("| " ++ name r ++ " | "
            ++ (if pass r then "✅ Present" else "❌ Missing")
            ++ " | "
            ++ match notes r with Some s => s | None => EmptyString end
            ++ " |")
         (Index.renderComment rows)).
Proof.
  split; [|split; [|split; [reflexivity|]]];
    [| |intros r Hin; change (occurs_in (Index.renderRow r) (Index.renderComment rows));
        unfold Index.renderComment, Index.renderTable; cbv zeta;
        do 7 apply occurs_in_suffix;
        apply join_occurs, (in_map Index.renderRow rows r Hin)].
  - intros Hall. unfold Index.renderComment.
    rewrite no_missing_iff_all_pass, Hall. split; [reflexivity|].
    unfold Index.allPass in Hall. rewrite forallb_forall in Hall.
    induction rows as [|r rows IH]; [reflexivity|].
    cbn [filter]. rewrite (Hall r (or_introl eq_refl)). cbn [negb].
    apply IH. intros x Hx. apply Hall. now right.
  - intros Hall.
    assert (Heq : Index.renderComment rows
                  = "❌ **Compliance FAILED** — Missing: "
                      ++ join ", " (map name (filter (fun r => negb (pass r)) rows))
                      ++ nl ++ nl ++ Index.renderTable rows).
    { unfold Index.renderComment. rewrite no_missing_iff_all_pass, Hall.
      unfold Index.failed_header. now rewrite append_assoc. }
    split; [assumption|].
    intros r Hin Hfail. rewrite Heq.
    apply occurs_in_context, join_occurs, in_map, filter_In.
    split; [assumption|]. now rewrite Hfail.
Qed.

Lemma C7_comment_of_verdict_witness :
  Index.allPass [ {| name := "README.md"; pass := true; notes := None |};
                  {| name := "CONTRIBUTING.md"; pass := false; notes := None |} ] = false
  /\ Index.renderComment
       [ {| name := "README.md"; pass := true; notes := None |};
         {| name := "CONTRIBUTING.md"; pass := false; notes := None |} ]
     = "❌ **Compliance FAILED** — Missing: "
         ++ join ", "
              (map name
                 (filter (fun r => negb (pass r))
                    [ {| name := "README.md"; pass := true; notes := None |};
                      {| name := "CONTRIBUTING.md"; pass := false; notes := None |} ]))
         ++ nl ++ nl
         ++ Index.renderTable
              [ {| name := "README.md"; pass := true; notes := None |};
                {| name := "CONTRIBUTING.md"; pass := false; notes := None |} ].
Proof.
  split; [reflexivity|].
  apply (C7_comment_of_verdict
           [ {| name := "README.md"; pass := true; notes := None |};
             {| name := "CONTRIBUTING.md"; pass := false; notes := None |} ]).
  reflexivity.
Defined.

(** ** The empty rule list *)

(** C10. With no rule result, [every] holds, the conclusion is "success" and
    the comment is the PASSED header over a table of its two header lines
    alone; the handler run over an empty rule list sends, after the
    creation, a first update that concludes "success" with the summary
    "0 / 0 required files present". *)
Theorem C10_empty_rule_set (R : Remote) (p : Payload) (c : Z) :
  Index.allPass [] = true
  /\ Index.conclusion_of [] = "success"
  /\ Index.renderComment []
     = "✅ **Compliance PASSED** — All required files are present."
         ++ nl ++ nl ++ "| Check | Result | Notes |" ++ nl ++ "|---|---|---|" ++ nl
  /\ (created_id (trace (Index.handler_on [] p) R) = Some c ->
      exists rest,
        updates (trace (Index.handler_on [] p) R)
        = UpdateCheckRun (owner_of p) (repo_of p) c "completed" "success"
            {| title := "Compliance (files): PASSED";
               summary := "0 / 0 required files present";
               text := "### Required files" ++ nl
                         ++ "| Check | Result | Notes |" ++ nl ++ "|---|---|---|" ++ nl |}
            :: rest).
Proof.
  repeat split. intros Hc.
  destruct (index_endings [] R p c Hc) as (_ & Hpaths & Hend).
  assert (Hobs : observed (trace (Index.handler_on [] p) R) = Return []).
  { unfold observed.
    destruct (contents_answers (trace (Index.handler_on [] p) R)); [reflexivity|discriminate]. }
  destruct Hend as [(e & a & Hobs' & Hup & _)
                   |[(ex & e & a & Hobs' & Hup & _)
                   |[(ex & x & e & a & n & Hobs' & Hup & _)
                   |(ex & x & y & n & Hobs' & Hup & _)]]];
    rewrite Hobs in Hobs'; try discriminate; injection Hobs' as <-;
    rewrite Hup; eexists; reflexivity.
Qed.

Lemma C10_empty_rule_set_witness :
  created_id (trace (Index.handler_on [] pr_opened) remote_ok) = Some 42%Z
  /\ exists rest,
       updates (trace (Index.handler_on [] pr_opened) remote_ok)
       = UpdateCheckRun (owner_of pr_opened) (repo_of pr_opened) 42 "completed" "success"
           {| title := "Compliance (files): PASSED";
              summary := "0 / 0 required files present";
              text := "### Required files" ++ nl
                        ++ "| Check | Result | Notes |" ++ nl ++ "|---|---|---|" ++ nl |}
           :: rest.
Proof.
  split; [reflexivity|].
  apply (C10_empty_rule_set remote_ok pr_opened 42). reflexivity.
Defined.

(** ** A rejected comment post *)

(** C2, on the code: every file is present, the verdict update resolves with
    "success", the comment post is rejected, and the [catch] block then sends
    a second update that overwrites the check run with "failure" and the
    error report. *)
Theorem C2_rejected_comment_overwrites_check_run :
  observed (trace (Index.handler pr_opened) remote_comment_rejected)
  = Return [ {| name := "README.md"; pass := true; notes := Some "Checked at repo root" |};
             {| name := "CONTRIBUTING.md"; pass := true;
                notes := Some "Checked at repo root" |} ]
  /\ answers is_comment (trace (Index.handler pr_opened) remote_comment_rejected)
     = [Rejected (Some 403%Z)]
  /\ answers is_update (trace (Index.handler pr_opened) remote_comment_rejected)
     = [Resolved 0; Resolved 0]
  /\ map (fun r => (fst r, title (snd r)))
       (reports (updates (trace (Index.handler pr_opened) remote_comment_rejected)))
     = [("success", "Compliance (files): PASSED");
        ("failure", "Compliance (files): ERROR")]
  /\ outcome (Index.handler pr_opened) remote_comment_rejected = Return tt.
Proof. repeat split. Qed.

(** Whenever the comment post is rejected after the creation, the check run
    is updated twice: with the computed verdict, then with the error report. *)
Theorem rejected_comment_sends_error_update (R : Remote) (p : Payload) (c : Z) :
  created_id (trace (Index.handler p) R) = Some c ->
  rejected is_comment (trace (Index.handler p) R) = true ->
  exists ex x a,
    observed (trace (Index.handler p) R) = Return ex
    /\ updates (trace (Index.handler p) R)
       = [Index.finalize_verdict (owner_of p) (repo_of p) c ex;
          Index.finalize_error (owner_of p) (repo_of p) c]
    /\ answers is_update (trace (Index.handler p) R) = [Resolved x; a].
Proof.
  unfold Index.handler. intros Hc.
  destruct (index_endings Index.targets R p c Hc) as (_ & _ & Hend).
  destruct Hend as [(e & a & Hobs & Hup & Hans & Hcom & Hrej)
                   |[(ex & e & a & Hobs & Hup & Hans & Hcom & Hrej)
                   |[(ex & x & e & a & n & Hobs & Hup & Hans & Hcom & Hca & Hrej)
                   |(ex & x & y & n & Hobs & Hup & Hans & Hcom & Hca & Hrej)]]];
    rewrite Hrej; try discriminate.
  intros _. exists ex, x, a. now repeat split.
Qed.

Lemma rejected_comment_sends_error_update_witness :
  created_id (trace (Index.handler pr_opened) remote_comment_rejected) = Some 42%Z
  /\ rejected is_comment (trace (Index.handler pr_opened) remote_comment_rejected) = true
  /\ exists ex x a,
       observed (trace (Index.handler pr_opened) remote_comment_rejected) = Return ex
       /\ updates (trace (Index.handler pr_opened) remote_comment_rejected)
          = [Index.finalize_verdict (owner_of pr_opened) (repo_of pr_opened) 42 ex;
             Index.finalize_error (owner_of pr_opened) (repo_of pr_opened) 42]
       /\ answers is_update (trace (Index.handler pr_opened) remote_comment_rejected)
          = [Resolved x; a].
Proof.
  split; [reflexivity|]. split; [reflexivity|].
  apply (rejected_comment_sends_error_update remote_comment_rejected pr_opened 42);
    reflexivity.
Defined.

(** * Further properties of the handlers *)

Lemma console_lines_app (s t : list Event) :
  console_lines (s ++ t)%list = (console_lines s ++ console_lines t)%list.
Proof.
  induction s as [|[q a|lvl msg] s IH]; simpl; [reflexivity|assumption|].
  now rewrite IH.
Qed.

Lemma only_contents_console (tv : list Event) :
  only_contents tv -> console_lines tv = [].
Proof.
  intros Htv.
  induction Htv as [|[q a|lvl msg] t Hq Ht IH]; simpl; [reflexivity|assumption|contradiction].
Qed.

Lemma final_event_last (t : list Event) (ev : Event) :
  final_event (t ++ [ev])%list = Some ev.
Proof.
  induction t as [|x t IH]; [reflexivity|].
  change ((x :: t) ++ [ev])%list with (x :: (t ++ [ev]))%list.
  destruct (t ++ [ev])%list as [|y l] eqn:E.
  - now destruct t.
  - exact IH.
Qed.

(** The trace of a run of [src/index.js] past the creation, with the fields
    of the payload it used. *)
Lemma index_created_full (ts : list string) (R : Remote) (p : Payload) (c : Z) :
  created_id (trace (Index.handler_on ts p) R) = Some c ->
  exists i n a tv rest,
    run (Index.handler_on ts p) R =
      (Return tt,
       ([Console LogLevel "PR event";
         Call (Authenticate i) (Resolved a);
         Call (CreateCheckRun (owner_of p) (repo_of p) "Compliance" (sha_of p)
                 "in_progress") (Resolved c)] ++ tv ++ rest)%list)
    /\ installation_id p = Some i
    /\ number p = Some n
    /\ only_contents tv
    /\ requests tv = map (fun path => GetContents (owner_of p) (repo_of p) path (sha_of p)) ts
    /\ contents_answers (trace (Index.handler_on ts p) R) = contents_answers tv
    /\ observed (trace (Index.handler_on ts p) R) = observed tv
    /\ IndexAfter (owner_of p) (repo_of p) n (sha_of p) c (observed tv) rest.
Proof.
  index_runs ts p R.
  - destruct (includes actionable (action p)); discriminate.
  - destruct Hshape as [e|a e|c' a tv rest Honly Hpaths Hreq Hafter]; try discriminate.
    intros Hc.
    assert (c' = c) as ->.
    { change (created_id ([Console LogLevel "PR event";
                Call (Authenticate i) (Resolved a);
                Call (CreateCheckRun (owner_of p) (repo_of p) "Compliance" (sha_of p)
                        "in_progress") (Resolved c')] ++ tv ++ rest)%list = Some c) in Hc.
      rewrite created_id_app in Hc. cbn in Hc. congruence. }
    assert (Hans : contents_answers
                     (Console LogLevel "PR event"
                        :: [Call (Authenticate i) (Resolved a);
                            Call (CreateCheckRun (owner_of p) (repo_of p) "Compliance"
                                    (sha_of p) "in_progress") (Resolved c)] ++ tv ++ rest)%list
                   = contents_answers tv).
    { change (Console LogLevel "PR event"
              :: [Call (Authenticate i) (Resolved a);
                  Call (CreateCheckRun (owner_of p) (repo_of p) "Compliance" (sha_of p)
                          "in_progress") (Resolved c)] ++ tv ++ rest)%list
      with ([Console LogLevel "PR event";
             Call (Authenticate i) (Resolved a);
             Call (CreateCheckRun (owner_of p) (repo_of p) "Compliance" (sha_of p)
                     "in_progress") (Resolved c)] ++ tv ++ rest)%list.
      rewrite !contents_answers_app, (after_no_contents _ _ _ _ _ _ _ Hafter).
      cbn [contents_answers app]. now rewrite app_nil_r. }
    exists i, n, a, tv, rest. repeat split; try assumption.
    unfold observed. now rewrite Hans.
Qed.

(** Without a created check run the trace holds no update and no comment. *)
Lemma not_created_quiet (ts : list string) (R : Remote) (p : Payload) :
  created_id (trace (Index.handler_on ts p) R) = None ->
  updates (trace (Index.handler_on ts p) R) = []
  /\ comments (trace (Index.handler_on ts p) R) = []
  /\ length (requests (trace (Index.handler_on ts p) R)) <= 2.
Proof.
  index_runs ts p R.
  - intros _. destruct (includes actionable (action p)); cbn; repeat split; lia.
  - destruct Hshape as [e|a e|c' a tv rest Honly Hpaths Hreq Hafter].
    + intros _. cbn. repeat split; lia.
    + intros _. cbn. repeat split; lia.
    + change (Console LogLevel "PR event"
                :: [Call (Authenticate i) (Resolved a);
                    Call (CreateCheckRun (owner_of p) (repo_of p) "Compliance" (sha_of p)
                            "in_progress") (Resolved c')] ++ tv ++ rest)%list
        with ([Console LogLevel "PR event";
               Call (Authenticate i) (Resolved a);
               Call (CreateCheckRun (owner_of p) (repo_of p) "Compliance" (sha_of p)
                       "in_progress") (Resolved c')] ++ tv ++ rest)%list.
      rewrite created_id_app. discriminate.
Qed.

(** ** The order of the requests *)

(** A run of [src/index.js] past the creation sends: the authentication, the
    creation, one contents query per target, in the order of the targets and
    at the head commit, whatever the answers to the earlier queries; then
    only check-run updates and comment posts, at least one. *)
Theorem index_request_sequence (R : Remote) (p : Payload) (c : Z) :
  created_id (trace (Index.handler p) R) = Some c ->
  exists i tail,
    installation_id p = Some i
    /\ requests (trace (Index.handler p) R)
       = (Authenticate i
          :: CreateCheckRun (owner_of p) (repo_of p) "Compliance" (sha_of p) "in_progress"
          :: map (fun path => GetContents (owner_of p) (repo_of p) path (sha_of p))
               Index.targets
          ++ tail)%list
    /\ tail <> []
    /\ Forall (fun q => is_update q || is_comment q = true) tail.
Proof.
  unfold Index.handler. intros Hc.
  destruct (index_created_full Index.targets R p c Hc)
    as (i & n & a & tv & rest & Hrun & Hi & Hn & Honly & Hreq & Hans & Hobs & Hafter).
  unfold trace. rewrite Hrun. cbn [snd].
  rewrite !requests_app, Hreq. exists i, (requests rest).
  split; [assumption|]. split; [reflexivity|].
  destruct Hafter; cbn; split; try discriminate; repeat constructor.
Qed.

Lemma index_request_sequence_witness :
  created_id (trace (Index.handler pr_opened) remote_readme_fault) = Some 42%Z
  /\ exists i tail,
       installation_id pr_opened = Some i
       /\ requests (trace (Index.handler pr_opened) remote_readme_fault)
          = (Authenticate i
             :: CreateCheckRun (owner_of pr_opened) (repo_of pr_opened) "Compliance"
                  (sha_of pr_opened) "in_progress"
             :: map (fun path =>
                       GetContents (owner_of pr_opened) (repo_of pr_opened) path
                         (sha_of pr_opened))
                  Index.targets
             ++ tail)%list
       /\ tail <> []
       /\ Forall (fun q => is_update q || is_comment q = true) tail.
Proof.
  split; [reflexivity|].
  apply (index_request_sequence remote_readme_fault pr_opened 42). reflexivity.
Defined.

(** ** Bounds *)

(** Whatever the remote answers, one event costs the handler of
    [src/index.js] at most seven requests, of which at most two check-run
    updates and at most one comment; the demonstration variant sends at most
    four requests, none of them a contents query or a comment. *)
Theorem handlers_send_bounded_requests (R : Remote) (p : Payload) (compliant : bool) :
  length (requests (trace (Index.handler p) R)) <= 7
  /\ length (updates (trace (Index.handler p) R)) <= 2
  /\ length (comments (trace (Index.handler p) R)) <= 1
  /\ length (requests (trace (Part000.handler compliant p) R)) <= 4
  /\ Forall (fun q => is_authenticate q || is_create q || is_update q = true)
       (requests (trace (Part000.handler compliant p) R)).
Proof.
  assert (HI : length (requests (trace (Index.handler p) R)) <= 7
               /\ length (updates (trace (Index.handler p) R)) <= 2
               /\ length (comments (trace (Index.handler p) R)) <= 1).
  { unfold Index.handler.
    destruct (created_id (trace (Index.handler_on Index.targets p) R)) as [c|] eqn:Hc.
    - destruct (index_created_full Index.targets R p c Hc)
        as (i & n & a & tv & rest & Hrun & Hi & Hn & Honly & Hreq & Hans & Hobs & Hafter).
      unfold trace. rewrite Hrun. cbn [snd].
      rewrite !updates_app, !comments_app, !requests_app, Hreq,
        (only_contents_updates _ Honly), (only_contents_comments _ Honly).
      destruct Hafter; cbn; lia.
    - destruct (not_created_quiet Index.targets R p Hc) as (Hu & Hcm & Hlen).
      rewrite Hu, Hcm. cbn. lia. }
  destruct HI as (H1 & H2 & H3). repeat split; try assumption.
  - demo_runs compliant p R.
    + destruct (includes actionable (action p)); cbn; lia.
    + destruct Hshape; cbn; lia.
  - demo_runs compliant p R.
    + destruct (includes actionable (action p)); constructor.
    + destruct Hshape; cbn; repeat constructor.
Qed.

(** ** What an update carries *)

Lemma conclusion_of_cases (existence : list RuleResult) :
  Index.conclusion_of existence = "success" \/ Index.conclusion_of existence = "failure".
Proof. unfold Index.conclusion_of. destruct (Index.allPass existence); auto. Qed.

(** Every check-run update a handler sends, in any run, is addressed to the
    owner and repository of the payload and to the check run the creation
    returned, sets its status to "completed" and concludes "success" or
    "failure"; no update is sent unless the creation resolved. *)
Theorem updates_complete_the_created_run (R : Remote) (p : Payload) (compliant : bool)
    (q : Request) :
  (In q (updates (trace (Index.handler p) R)) ->
   exists c concl out,
     created_id (trace (Index.handler p) R) = Some c
     /\ q = UpdateCheckRun (owner_of p) (repo_of p) c "completed" concl out
     /\ (concl = "success" \/ concl = "failure"))
  /\
  (In q (updates (trace (Part000.handler compliant p) R)) ->
   exists c concl out,
     created_id (trace (Part000.handler compliant p) R) = Some c
     /\ q = UpdateCheckRun (owner_of p) (repo_of p) c "completed" concl out
     /\ (concl = "success" \/ concl = "failure")).
Proof.
  split.
  - unfold Index.handler.
    destruct (created_id (trace (Index.handler_on Index.targets p) R)) as [c|] eqn:Hc.
    + destruct (index_created_full Index.targets R p c Hc)
        as (i & n & a & tv & rest & Hrun & Hi & Hn & Honly & Hreq & Hans & Hobs & Hafter).
      unfold trace. rewrite Hrun. cbn [snd].
      rewrite !updates_app, (only_contents_updates _ Honly).
      intros Hin. exists c.
      destruct Hafter as [e0 a0|ex e0 a0|ex x e0 a0|ex x y]; cbn in Hin;
        repeat (destruct Hin as [<-|Hin]); try contradiction;
        do 2 eexists; (split; [reflexivity|]); (split; [reflexivity|]);
        auto using conclusion_of_cases.
    + destruct (not_created_quiet Index.targets R p Hc) as (Hu & _).
      rewrite Hu. contradiction.
  - demo_runs compliant p R.
    + destruct (includes actionable (action p)); contradiction.
    + intros Hin.
      destruct Hshape; cbn in Hin; repeat (destruct Hin as [<-|Hin]); try contradiction;
        do 3 eexists; (split; [reflexivity|]); (split; [reflexivity|]);
        auto; destruct compliant; auto.
Qed.

Lemma updates_complete_the_created_run_witness :
  In (Index.finalize_error "octo" "demo" 42)
     (updates (trace (Index.handler pr_opened) remote_comment_rejected))
  /\ exists c concl out,
       created_id (trace (Index.handler pr_opened) remote_comment_rejected) = Some c
       /\ Index.finalize_error "octo" "demo" 42
          = UpdateCheckRun (owner_of pr_opened) (repo_of pr_opened) c "completed" concl out
       /\ (concl = "success" \/ concl = "failure").
Proof.
  split; [right; left; reflexivity|].
  apply (proj1 (updates_complete_the_created_run remote_comment_rejected pr_opened true
                  (Index.finalize_error "octo" "demo" 42))).
  right; left; reflexivity.
Defined.

(** ** When a comment is posted *)

(** A comment is posted at most once, and only after the creation resolved,
    every rule settled and the update that carries the verdict resolved; it
    goes to the issue [payload.number] of the payload's repository and its
    body is [renderComment] of the verdict. *)
Theorem comment_follows_resolved_verdict (R : Remote) (p : Payload) (q : Request) :
  In q (comments (trace (Index.handler p) R)) ->
  exists c n ex x later,
    created_id (trace (Index.handler p) R) = Some c
    /\ number p = Some n
    /\ observed (trace (Index.handler p) R) = Return ex
    /\ q = CreateComment (owner_of p) (repo_of p) n (Index.renderComment ex)
    /\ comments (trace (Index.handler p) R) = [q]
    /\ answers is_update (trace (Index.handler p) R) = Resolved x :: later.
Proof.
  unfold Index.handler.
  destruct (created_id (trace (Index.handler_on Index.targets p) R)) as [c|] eqn:Hc.
  - destruct (index_created_full Index.targets R p c Hc)
      as (i & n & a & tv & rest & Hrun & Hi & Hn & Honly & Hreq & Hans & Hobs & Hafter).
    rewrite Hobs. unfold trace. rewrite Hrun. cbn [snd].
    rewrite !comments_app, !answers_app, (only_contents_comments _ Honly),
      (only_contents_answers _ _ Honly) by reflexivity.
    intros Hin. exists c, n.
    destruct Hafter as [e0 a0|ex e0 a0|ex x e0 a0|ex x y]; cbn in Hin;
      repeat (destruct Hin as [<-|Hin]); try contradiction;
      exists ex, x; eexists; repeat split; assumption.
  - destruct (not_created_quiet Index.targets R p Hc) as (_ & Hcm & _).
    rewrite Hcm. contradiction.
Qed.

Lemma comment_follows_resolved_verdict_witness :
  In (CreateComment "octo" "demo" 3
        (Index.renderComment (map row_of [("README.md", Resolved 0);
                                          ("CONTRIBUTING.md", Rejected (Some 404%Z))])))
     (comments (trace (Index.handler pr_opened) remote_contributing_absent))
  /\ exists c n ex x later,
       created_id (trace (Index.handler pr_opened) remote_contributing_absent) = Some c
       /\ number pr_opened = Some n
       /\ observed (trace (Index.handler pr_opened) remote_contributing_absent) = Return ex
       /\ CreateComment "octo" "demo" 3
            (Index.renderComment (map row_of [("README.md", Resolved 0);
                                              ("CONTRIBUTING.md", Rejected (Some 404%Z))]))
          = CreateComment (owner_of pr_opened) (repo_of pr_opened) n (Index.renderComment ex)
       /\ comments (trace (Index.handler pr_opened) remote_contributing_absent)
          = [CreateComment "octo" "demo" 3
               (Index.renderComment (map row_of [("README.md", Resolved 0);
                                                 ("CONTRIBUTING.md", Rejected (Some 404%Z))]))]
       /\ answers is_update (trace (Index.handler pr_opened) remote_contributing_absent)
          = Resolved x :: later.
Proof.
  split; [left; reflexivity|].
  apply (comment_follows_resolved_verdict remote_contributing_absent pr_opened).
  left; reflexivity.
Defined.

(** ** What the handler throws *)

Lemma final_event_app (s t : list Event) :
  t <> [] -> final_event (s ++ t)%list = final_event t.
Proof.
  intros Ht. induction s as [|x s IH]; [reflexivity|].
  change ((x :: s) ++ t)%list with (x :: (s ++ t))%list.
  destruct (s ++ t)%list as [|y l] eqn:E.
  - apply app_eq_nil in E. now destruct E.
  - exact IH.
Qed.

(** A handler throws exactly when the authentication or the creation of the
    check run is rejected, and what it throws is that rejection, its last
    event; a rejected contents query, update or comment never escapes it. *)
Theorem handler_throws_iff (R : Remote) (p : Payload) (compliant : bool) (e : Error) :
  (outcome (Index.handler p) R = Throw e
   <-> exists q,
         final_event (trace (Index.handler p) R) = Some (Call q (Rejected e))
         /\ is_authenticate q || is_create q = true)
  /\
  (outcome (Part000.handler compliant p) R = Throw e
   <-> exists q,
         final_event (trace (Part000.handler compliant p) R) = Some (Call q (Rejected e))
         /\ is_authenticate q || is_create q = true).
Proof.
  split.
  - unfold Index.handler. index_runs Index.targets p R.
    + split; [discriminate|].
      intros (q & Hq & _). destruct (includes actionable (action p)); discriminate.
    + destruct Hshape as [e0|a e0|c a tv rest Honly Hpaths Hreq Hafter].
      * split.
        -- intros [= ->]. eexists. split; reflexivity.
        -- intros (q & [= _ ->] & _). reflexivity.
      * split.
        -- intros [= ->]. eexists. split; reflexivity.
        -- intros (q & [= _ ->] & _). reflexivity.
      * split; [discriminate|]. intros (q & Hq & Hkind). exfalso.
        change (Console LogLevel "PR event"
                  :: [Call (Authenticate i) (Resolved a);
                      Call (CreateCheckRun (owner_of p) (repo_of p) "Compliance" (sha_of p)
                              "in_progress") (Resolved c)] ++ tv ++ rest)%list
          with ([Console LogLevel "PR event";
                 Call (Authenticate i) (Resolved a);
                 Call (CreateCheckRun (owner_of p) (repo_of p) "Compliance" (sha_of p)
                         "in_progress") (Resolved c)] ++ tv ++ rest)%list in Hq.
        assert (Hrest : rest <> []) by (destruct Hafter; discriminate).
        rewrite !final_event_app in Hq
          by (try assumption; intros Hnil; apply app_eq_nil in Hnil; now destruct Hnil).
        destruct Hafter; cbn in Hq; try discriminate;
          injection Hq as <- _; discriminate.
  - demo_runs compliant p R.
    + split; [discriminate|].
      intros (q & Hq & _). destruct (includes actionable (action p)); discriminate.
    + destruct Hshape.
      * split.
        -- intros [= ->]. eexists. split; reflexivity.
        -- intros (q & [= _ ->] & _). reflexivity.
      * split.
        -- intros [= ->]. eexists. split; reflexivity.
        -- intros (q & [= _ ->] & _). reflexivity.
      * split; [discriminate|]. intros (q & Hq & _). discriminate.
      * split; [discriminate|]. intros (q & Hq & _). discriminate.
      * split; [discriminate|]. intros (q & Hq & _). discriminate.
Qed.

Lemma handler_throws_iff_witness :
  outcome (Index.handler pr_opened) remote_create_rejected = Throw (Some 403%Z)
  /\ exists q,
       final_event (trace (Index.handler pr_opened) remote_create_rejected)
       = Some (Call q (Rejected (Some 403%Z)))
       /\ is_authenticate q || is_create q = true.
Proof.
  split; [reflexivity|].
  apply (proj1 (handler_throws_iff remote_create_rejected pr_opened true (Some 403%Z))).
  reflexivity.
Defined.

(** ** What is logged *)

Lemma collect_throw_unexpected (l : list (string * Response)) (e : Error) :
  collect (map rule_on l) = Throw e -> existsb unexpected l = true.
Proof.
  intros H. destruct (existsb unexpected l) eqn:E; [reflexivity|].
  rewrite (collect_normal l E) in H. discriminate.
Qed.

Lemma collect_return_normal (l : list (string * Response)) (ex : list RuleResult) :
  collect (map rule_on l) = Return ex ->
  existsb unexpected l = false /\ ex = map row_of l.
Proof.
  intros H. destruct (existsb unexpected l) eqn:E.
  - destruct (collect_unexpected l E) as [e He]. rewrite He in H. discriminate.
  - rewrite (collect_normal l E) in H. now injection H as <-.
Qed.

(** After the creation, each run logs its outcome.  The handler of
    [src/index.js] logs, after "PR event", exactly one line: the error line
    when a rule threw or the verdict update or the comment was rejected, and
    otherwise the completed line with the conclusion; a rejected error update
    adds no line.  The demonstration variant logs the created line, then the
    completed line when the verdict update resolved, the error line when it
    was rejected, and a second error line when the error update was rejected
    as well. *)
Theorem outcome_is_logged (R : Remote) (p : Payload) (compliant : bool) (c : Z) :
  (created_id (trace (Index.handler p) R) = Some c ->
   console_lines (trace (Index.handler p) R)
   = [ (LogLevel, "PR event");
       if failed (trace (Index.handler p) R)
       then (ErrorLevel, "Error during file checks:")
       else (LogLevel,
             "[checks] completed "
               ++ Index.conclusion_of
                    (map row_of (contents_answers (trace (Index.handler p) R)))
               ++ " & commented for " ++ owner_of p ++ "/" ++ repo_of p
               ++ "@" ++ sha_of p) ])
  /\
  (created_id (trace (Part000.handler compliant p) R) = Some c ->
   console_lines (trace (Part000.handler compliant p) R)
   = (LogLevel, "PR event")
     :: (LogLevel,
         "[checks] in_progress created id=" ++ string_of_Z c ++ " for "
           ++ owner_of p ++ "/" ++ repo_of p ++ "@" ++ sha_of p)
     :: match answers is_update (trace (Part000.handler compliant p) R) with
        | Resolved _ :: _ =>
            [ (LogLevel,
               "[checks] completed " ++ Part000.conclusion_of compliant ++ " for "
                 ++ owner_of p ++ "/" ++ repo_of p ++ "@" ++ sha_of p) ]
        | Rejected _ :: Resolved _ :: _ =>
            [ (ErrorLevel, "Error during compliance run:") ]
        | _ =>
            [ (ErrorLevel, "Error during compliance run:");
              (ErrorLevel, "Also failed to update check run:") ]
        end).
Proof.
  split.
  - unfold Index.handler. intros Hc.
    destruct (index_created_full Index.targets R p c Hc)
      as (i & n & a & tv & rest & Hrun & Hi & Hn & Honly & Hreq & Hans & Hobs & Hafter).
    unfold failed. rewrite Hans. unfold trace. rewrite Hrun. cbn [snd].
    rewrite !console_lines_app, !rejected_app, (only_contents_console _ Honly),
      !(only_contents_rejected _ _ Honly) by reflexivity.
    unfold observed in Hafter.
    destruct (collect (map rule_on (contents_answers tv))) as [ex|e] eqn:Hv.
    + destruct (collect_return_normal _ _ Hv) as [Hnormal ->]. rewrite Hnormal.
      inversion Hafter as [|ex' e0 [z|e1]|ex' x e0 [z|e1]|ex' x y]; subst; reflexivity.
    + rewrite (collect_throw_unexpected _ _ Hv).
      inversion Hafter as [e0 [z|e1]| | |]; subst; reflexivity.
  - demo_runs compliant p R.
    + destruct (includes actionable (action p)); discriminate.
    + destruct Hshape; try discriminate; intros [= ->]; reflexivity.
Qed.

Lemma outcome_is_logged_witness :
  created_id (trace (Index.handler pr_opened) remote_updates_rejected) = Some 42%Z
  /\ console_lines (trace (Index.handler pr_opened) remote_updates_rejected)
     = [ (LogLevel, "PR event"); (ErrorLevel, "Error during file checks:") ]
  /\ created_id (trace (Part000.handler true pr_opened) remote_updates_rejected)
     = Some 42%Z
  /\ console_lines (trace (Part000.handler true pr_opened) remote_updates_rejected)
     = [ (LogLevel, "PR event");
         (LogLevel, "[checks] in_progress created id=42 for octo/demo@abc123");
         (ErrorLevel, "Error during compliance run:");
         (ErrorLevel, "Also failed to update check run:") ].
Proof.
  split; [reflexivity|].
  split; [apply (proj1 (outcome_is_logged remote_updates_rejected pr_opened true 42));
          reflexivity|].
  split; [reflexivity|].
  apply (proj2 (outcome_is_logged remote_updates_rejected pr_opened true 42)).
  reflexivity.
Defined.

(** * The verification step, for any list of targets *)

Lemma collect_throw_source (l : list (string * Response)) (e : Error) :
  collect (map rule_on l) = Throw e ->
  exists path, In (path, Rejected e) l /\ Index.is_404 e = false.
Proof.
  induction l as [|[path a] l IH]; [discriminate|].
  cbn [map collect]. unfold rule_on at 1. cbn [fst snd].
  destruct a as [id|e0].
  - destruct (collect (map rule_on l)) as [xs|e1]; [discriminate|].
    intros [= ->]. destruct (IH eq_refl) as (path' & Hin & H404).
    exists path'. split; [now right|assumption].
  - destruct (Index.is_404 e0) eqn:H404.
    + destruct (collect (map rule_on l)) as [xs|e1]; [discriminate|].
      intros [= ->]. destruct (IH eq_refl) as (path' & Hin & H404').
      exists path'. split; [now right|assumption].
    + intros [= ->]. exists path. split; [now left|assumption].
Qed.

(** [verify], over any list of targets, sends exactly one contents query per
    target, in order and at the given commit, whatever the earlier queries
    were answered, and logs nothing.  When it returns, the verdict has one
    row per target, in order, that passes exactly when the query resolved;
    when it throws, what it throws is a rejection it received that is not a
    404. *)
Theorem verify_asks_every_target (ts : list string) (owner repo headSha : string)
    (R : Remote) (h : list Event) :
  requests (snd (Index.verify ts owner repo headSha R h))
  = map (fun path => GetContents owner repo path headSha) ts
  /\ console_lines (snd (Index.verify ts owner repo headSha R h)) = []
  /\ (forall rows,
        fst (Index.verify ts owner repo headSha R h) = Return rows ->
        rows = map row_of (contents_answers (snd (Index.verify ts owner repo headSha R h)))
        /\ map name rows = ts)
  /\ (forall e,
        fst (Index.verify ts owner repo headSha R h) = Throw e ->
        Index.is_404 e = false
        /\ exists path,
             In (path, Rejected e)
                (contents_answers (snd (Index.verify ts owner repo headSha R h)))).
Proof.
  destruct (verify_run ts owner repo headSha R h) as (tv & Hrun & Honly & Hpaths & Hreq).
  rewrite Hrun. cbn [fst snd].
  split; [assumption|]. split; [now apply only_contents_console|]. split.
  - intros rows Hv. destruct (collect_return_normal _ _ Hv) as [_ ->].
    split; [reflexivity|].
    rewrite map_map. cbn [row_of name]. exact Hpaths.
  - intros e Hv. destruct (collect_throw_source _ _ Hv) as (path & Hin & H404).
    split; [assumption|]. now exists path.
Qed.

Lemma verify_asks_every_target_witness :
  fst (Index.verify ["LICENSE"; "README.md"; "SECURITY.md"] "octo" "demo" "abc123"
         remote_readme_fault [])
  = Throw (Some 500%Z)
  /\ requests (snd (Index.verify ["LICENSE"; "README.md"; "SECURITY.md"] "octo" "demo"
                      "abc123" remote_readme_fault []))
     = [GetContents "octo" "demo" "LICENSE" "abc123";
        GetContents "octo" "demo" "README.md" "abc123";
        GetContents "octo" "demo" "SECURITY.md" "abc123"]
  /\ Index.is_404 (Some 500%Z) = false.
Proof.
  split; [reflexivity|]. split; [reflexivity|].
  apply (verify_asks_every_target ["LICENSE"; "README.md"; "SECURITY.md"] "octo" "demo"
           "abc123" remote_readme_fault []).
  reflexivity.
Defined.

(** * The conclusion a check run is left with *)

Lemma resolved_updates_app (s t : list Event) :
  resolved_updates (s ++ t)%list = (resolved_updates s ++ resolved_updates t)%list.
Proof.
  induction s as [|[q [id|e]|lvl msg] s IH]; simpl; try assumption; [reflexivity|].
  destruct (is_update q); simpl; now rewrite IH.
Qed.

Lemma only_contents_resolved_updates (tv : list Event) :
  only_contents tv -> resolved_updates tv = [].
Proof.
  intros Htv.
  induction Htv as [|[q a|lvl msg] t Hq Ht IH]; simpl; [reflexivity| |contradiction].
  destruct q; try discriminate. destruct a; assumption.
Qed.

(** C3, as the code has it.  After the creation, when every contents query
    resolved or met a 404, the first update carries "success" exactly when
    every rule result passes, and "failure" otherwise; an update that follows
    it carries "failure".  When a query met another rejection, so that no
    verdict exists, the only update carries "failure".  Unless the comment
    post was rejected, the check run is left with the conclusion "success"
    exactly when no rule threw, every rule result passes and no update was
    rejected.  In the demonstration variant the first update carries
    "success" exactly when every check passes, and the check run is left
    with "success" exactly when it does and no update was rejected. *)
Theorem C3_conclusion_fails_closed (R : Remote) (p : Payload) (compliant : bool) (c : Z) :
  (created_id (trace (Index.handler p) R) = Some c ->
   (existsb unexpected (contents_answers (trace (Index.handler p) R)) = false ->
    exists first later,
      conclusions (updates (trace (Index.handler p) R)) = first :: later
      /\ (first = "success"
          <-> forall x,
                In x (map row_of (contents_answers (trace (Index.handler p) R))) ->
                pass x = true)
      /\ (first = "success" \/ first = "failure")
      /\ Forall (eq "failure") later)
   /\ (existsb unexpected (contents_answers (trace (Index.handler p) R)) = true ->
       conclusions (updates (trace (Index.handler p) R)) = ["failure"])
   /\ (rejected is_comment (trace (Index.handler p) R) = false ->
       (recorded_conclusion (trace (Index.handler p) R) = Some "success"
        <-> existsb unexpected (contents_answers (trace (Index.handler p) R)) = false
            /\ (forall x,
                  In x (map row_of (contents_answers (trace (Index.handler p) R))) ->
                  pass x = true)
            /\ rejected is_update (trace (Index.handler p) R) = false)))
  /\
  (created_id (trace (Part000.handler compliant p) R) = Some c ->
   (exists first later,
      conclusions (updates (trace (Part000.handler compliant p) R)) = first :: later
      /\ (first = "success"
          <-> forall x, In x (Part000.checks compliant) -> pass x = true)
      /\ (first = "success" \/ first = "failure")
      /\ Forall (eq "failure") later)
   /\ (recorded_conclusion (trace (Part000.handler compliant p) R) = Some "success"
       <-> (forall x, In x (Part000.checks compliant) -> pass x = true)
           /\ rejected is_update (trace (Part000.handler compliant p) R) = false)).
Proof.
  split.
  - unfold Index.handler. intros Hc.
    destruct (index_created_full Index.targets R p c Hc)
      as (i & n & a & tv & rest & Hrun & Hi & Hn & Honly & Hreq & Hans & Hobs & Hafter).
    rewrite Hans. unfold recorded_conclusion, trace. rewrite Hrun. cbn [snd].
    rewrite !updates_app, !rejected_app, !resolved_updates_app,
      (only_contents_updates _ Honly), (only_contents_resolved_updates _ Honly),
      !(only_contents_rejected _ _ Honly) by reflexivity.
    unfold observed in Hafter.
    destruct (collect (map rule_on (contents_answers tv))) as [ex|e] eqn:Hv.
    + destruct (collect_return_normal _ _ Hv) as [Hnormal ->]. rewrite Hnormal.
      pose proof (conclusion_success_iff (map row_of (contents_answers tv))) as Hiff.
      pose proof (conclusion_of_cases (map row_of (contents_answers tv))) as Hcases.
      split; [|split; [discriminate|]].
      * intros _.
        inversion Hafter as [|ex' e0 [z|e1]|ex' x e0 [z|e1]|ex' x y]; subst;
          do 2 eexists; (split; [reflexivity|]); (split; [exact Hiff|]);
          (split; [exact Hcases|]); repeat constructor.
      * inversion Hafter as [|ex' e0 [z|e1]|ex' x e0 [z|e1]|ex' x y]; subst;
          cbn; intros Hrej; try discriminate;
          (split; [intros [= Hsucc]; try discriminate|intros (_ & Hall & Hup); try discriminate]).
        -- repeat split. now apply Hiff.
        -- f_equal. now apply Hiff.
    + rewrite (collect_throw_unexpected _ _ Hv).
      split; [discriminate|]. split.
      * intros _. inversion Hafter as [e0 [z|e1]| | |]; subst; reflexivity.
      * intros _. split; [|intros (Hx & _); discriminate].
        inversion Hafter as [e0 [z|e1]| | |]; subst; cbn; discriminate.
  - unfold recorded_conclusion. demo_runs compliant p R.
    + destruct (includes actionable (action p)); discriminate.
    + pose proof (demo_conclusion_success_iff compliant) as Hiff.
      destruct Hshape; try discriminate; intros [= ->]; cbn; (split;
        [do 2 eexists; (split; [reflexivity|]); (split; [exact Hiff|]);
         (split; [destruct compliant; auto|]); repeat constructor|]).
      * split; [intros [= Hsucc]; split; [now apply Hiff|reflexivity]
               |intros (Hall & _); f_equal; now apply Hiff].
      * split; [discriminate|intros (_ & Hup); discriminate].
      * split; [discriminate|intros (_ & Hup); discriminate].
Qed.

Lemma C3_conclusion_fails_closed_witness :
  created_id (trace (Index.handler pr_opened) remote_ok) = Some 42%Z
  /\ rejected is_comment (trace (Index.handler pr_opened) remote_ok) = false
  /\ (recorded_conclusion (trace (Index.handler pr_opened) remote_ok) = Some "success"
      <-> existsb unexpected (contents_answers (trace (Index.handler pr_opened) remote_ok))
          = false
          /\ (forall x,
                In x (map row_of
                        (contents_answers (trace (Index.handler pr_opened) remote_ok))) ->
                pass x = true)
          /\ rejected is_update (trace (Index.handler pr_opened) remote_ok) = false)
  /\ created_id (trace (Index.handler pr_opened) remote_readme_fault) = Some 42%Z
  /\ existsb unexpected
       (contents_answers (trace (Index.handler pr_opened) remote_readme_fault)) = true
  /\ conclusions (updates (trace (Index.handler pr_opened) remote_readme_fault))
     = ["failure"]
  /\ created_id (trace (Part000.handler false pr_opened) remote_ok) = Some 42%Z
  /\ (recorded_conclusion (trace (Part000.handler false pr_opened) remote_ok)
      = Some "success"
      <-> (forall x, In x (Part000.checks false) -> pass x = true)
          /\ rejected is_update (trace (Part000.handler false pr_opened) remote_ok) = false).
Proof.
  split; [reflexivity|]. split; [reflexivity|].
  split.
  { apply (proj1 (C3_conclusion_fails_closed remote_ok pr_opened true 42) eq_refl).
    reflexivity. }
  split; [reflexivity|]. split; [reflexivity|].
  split.
  { apply (proj1 (C3_conclusion_fails_closed remote_readme_fault pr_opened true 42) eq_refl).
    reflexivity. }
  split; [reflexivity|].
  apply (proj2 (C3_conclusion_fails_closed remote_ok pr_opened false 42) eq_refl).
Defined.

(** C3, as stated, fails: every required file is present and no rule throws,
    yet the update that carries "success" is rejected, the [catch] block
    sends the error report, and the check run is left with "failure".  The
    same happens in the demonstration variant on a passing draw. *)
Lemma C3_counterexample :
  existsb unexpected
    (contents_answers (trace (Index.handler pr_opened) remote_first_update_rejected))
  = false
  /\ forallb pass
       (map row_of
          (contents_answers (trace (Index.handler pr_opened) remote_first_update_rejected)))
     = true
  /\ answers is_comment (trace (Index.handler pr_opened) remote_first_update_rejected) = []
  /\ answers is_update (trace (Index.handler pr_opened) remote_first_update_rejected)
     = [Rejected (Some 502%Z); Resolved 0]
  /\ conclusions (updates (trace (Index.handler pr_opened) remote_first_update_rejected))
     = ["success"; "failure"]
  /\ recorded_conclusion (trace (Index.handler pr_opened) remote_first_update_rejected)
     = Some "failure"
  /\ forallb pass (Part000.checks true) = true
  /\ conclusions
       (updates (trace (Part000.handler true pr_opened) remote_first_update_rejected))
     = ["success"; "failure"]
  /\ recorded_conclusion
       (trace (Part000.handler true pr_opened) remote_first_update_rejected)
     = Some "failure".
Proof. repeat split. Qed.

(** * The reports and the comment of a run *)

(** The reports and the comment of a run of [src/index.js] past the
    creation, computed from the answers to its contents queries and from
    whether an update or the comment was rejected. *)
Lemma index_reports_formula (R : Remote) (p : Payload) (c : Z) :
  created_id (trace (Index.handler p) R) = Some c ->
  reports (updates (trace (Index.handler p) R))
  = report_of_answers (contents_answers (trace (Index.handler p) R))
    :: (if negb (existsb unexpected (contents_answers (trace (Index.handler p) R)))
           && (rejected is_update (trace (Index.handler p) R)
               || rejected is_comment (trace (Index.handler p) R))
        then [("failure", Index.error_output)]
        else [])
  /\ bodies (comments (trace (Index.handler p) R))
     = (if negb (existsb unexpected (contents_answers (trace (Index.handler p) R)))
           && (rejected is_comment (trace (Index.handler p) R)
               || negb (rejected is_update (trace (Index.handler p) R)))
        then [Index.renderComment
                (map row_of (contents_answers (trace (Index.handler p) R)))]
        else []).
Proof.
  unfold Index.handler. intros Hc.
  destruct (index_created_full Index.targets R p c Hc)
    as (i & n & a & tv & rest & Hrun & Hi & Hn & Honly & Hreq & Hans & Hobs & Hafter).
  rewrite Hans. unfold report_of_answers, trace. rewrite Hrun. cbn [snd].
  rewrite !updates_app, !comments_app, !rejected_app,
    (only_contents_updates _ Honly), (only_contents_comments _ Honly),
    !(only_contents_rejected _ _ Honly) by reflexivity.
  unfold observed in Hafter.
  destruct (collect (map rule_on (contents_answers tv))) as [ex|e] eqn:Hv.
  - destruct (collect_return_normal _ _ Hv) as [Hnormal ->]. rewrite Hnormal.
    inversion Hafter as [|ex' e0 [z|e1]|ex' x e0 [z|e1]|ex' x y]; subst; split; reflexivity.
  - rewrite (collect_throw_unexpected _ _ Hv).
    inversion Hafter as [e0 [z|e1]| | |]; subst; split; reflexivity.
Qed.

Lemma demo_reports_formula (R : Remote) (p : Payload) (compliant : bool) (c : Z) :
  created_id (trace (Part000.handler compliant p) R) = Some c ->
  reports (updates (trace (Part000.handler compliant p) R))
  = (Part000.conclusion_of compliant, Part000.verdict_output compliant)
    :: (if rejected is_update (trace (Part000.handler compliant p) R)
        then [("failure", Part000.error_output)]
        else []).
Proof.
  demo_runs compliant p R.
  - destruct (includes actionable (action p)); discriminate.
  - destruct Hshape; try discriminate; intros _; reflexivity.
Qed.

(** C4, as the code has it.  In a run of [src/index.js] past the creation,
    the report of the first update is [report_of_answers] of the answers to
    the contents queries, and a comment, when one is posted, is
    [renderComment] of the verdict those answers give.  So two runs on the
    same payload that received the same answers send the same first report
    and, where both comment, the same comment; when, besides, an update or
    the comment is rejected in the one exactly when it is in the other, they
    send the same reports and the same comments altogether.  Two runs of the
    demonstration variant send the same first report exactly when their
    random draws agree. *)
Theorem C4_reports_determined (R1 R2 : Remote) (p : Payload)
    (compliant1 compliant2 : bool) (c1 c2 : Z) :
  (created_id (trace (Index.handler p) R1) = Some c1 ->
   created_id (trace (Index.handler p) R2) = Some c2 ->
   hd_error (reports (updates (trace (Index.handler p) R1)))
   = Some (report_of_answers (contents_answers (trace (Index.handler p) R1)))
   /\ (forall b,
         In b (bodies (comments (trace (Index.handler p) R1))) ->
         b = Index.renderComment
               (map row_of (contents_answers (trace (Index.handler p) R1))))
   /\ (contents_answers (trace (Index.handler p) R1)
       = contents_answers (trace (Index.handler p) R2) ->
       hd_error (reports (updates (trace (Index.handler p) R1)))
       = hd_error (reports (updates (trace (Index.handler p) R2)))
       /\ (forall b1 b2,
             In b1 (bodies (comments (trace (Index.handler p) R1))) ->
             In b2 (bodies (comments (trace (Index.handler p) R2))) ->
             b1 = b2)
       /\ (rejected is_update (trace (Index.handler p) R1)
           = rejected is_update (trace (Index.handler p) R2) ->
           rejected is_comment (trace (Index.handler p) R1)
           = rejected is_comment (trace (Index.handler p) R2) ->
           reports (updates (trace (Index.handler p) R1))
           = reports (updates (trace (Index.handler p) R2))
           /\ bodies (comments (trace (Index.handler p) R1))
              = bodies (comments (trace (Index.handler p) R2)))))
  /\
  (created_id (trace (Part000.handler compliant1 p) R1) = Some c1 ->
   created_id (trace (Part000.handler compliant2 p) R2) = Some c2 ->
   (hd_error (reports (updates (trace (Part000.handler compliant1 p) R1)))
    = hd_error (reports (updates (trace (Part000.handler compliant2 p) R2)))
    <-> compliant1 = compliant2)
   /\ (compliant1 = compliant2 ->
       rejected is_update (trace (Part000.handler compliant1 p) R1)
       = rejected is_update (trace (Part000.handler compliant2 p) R2) ->
       reports (updates (trace (Part000.handler compliant1 p) R1))
       = reports (updates (trace (Part000.handler compliant2 p) R2)))).
Proof.
  split.
  - intros H1 H2.
    destruct (index_reports_formula R1 p c1 H1) as [Hr1 Hb1].
    destruct (index_reports_formula R2 p c2 H2) as [Hr2 Hb2].
    assert (Hbody : forall R b,
              bodies (comments (trace (Index.handler p) R))
              = (if negb (existsb unexpected (contents_answers (trace (Index.handler p) R)))
                    && (rejected is_comment (trace (Index.handler p) R)
                        || negb (rejected is_update (trace (Index.handler p) R)))
                 then [Index.renderComment
                         (map row_of (contents_answers (trace (Index.handler p) R)))]
                 else []) ->
              In b (bodies (comments (trace (Index.handler p) R))) ->
              b = Index.renderComment
                    (map row_of (contents_answers (trace (Index.handler p) R)))).
    { intros R b Hb Hin. rewrite Hb in Hin.
      match type of Hin with
      | In _ (if ?x then _ else _) => destruct x
      end; [destruct Hin as [<-|[]]; reflexivity|destruct Hin]. }
    split; [now rewrite Hr1|]. split; [intros b; now apply Hbody|].
    intros Hsame. split; [rewrite Hr1, Hr2; cbn [hd_error]; now rewrite Hsame|].
    split.
    + intros b1 b2 Hin1 Hin2.
      rewrite (Hbody R1 b1 Hb1 Hin1), (Hbody R2 b2 Hb2 Hin2). now rewrite Hsame.
    + intros Hup Hcom. rewrite Hr1, Hr2, Hb1, Hb2, Hsame, Hup, Hcom. now split.
  - intros H1 H2.
    rewrite (demo_reports_formula R1 p compliant1 c1 H1),
      (demo_reports_formula R2 p compliant2 c2 H2).
    split.
    + cbn [hd_error]. split.
      * destruct compliant1, compliant2; intros H; try reflexivity; discriminate.
      * now intros ->.
    + intros -> ->. reflexivity.
Qed.

Lemma C4_reports_determined_witness :
  created_id (trace (Index.handler pr_opened) remote_ok) = Some 42%Z
  /\ created_id (trace (Index.handler pr_opened) remote_comment_rejected) = Some 42%Z
  /\ contents_answers (trace (Index.handler pr_opened) remote_ok)
     = contents_answers (trace (Index.handler pr_opened) remote_comment_rejected)
  /\ hd_error (reports (updates (trace (Index.handler pr_opened) remote_ok)))
     = hd_error (reports (updates (trace (Index.handler pr_opened) remote_comment_rejected)))
  /\ created_id (trace (Part000.handler true pr_opened) remote_ok) = Some 42%Z
  /\ created_id (trace (Part000.handler true pr_opened) remote_first_update_rejected)
     = Some 42%Z
  /\ (hd_error (reports (updates (trace (Part000.handler true pr_opened) remote_ok)))
      = hd_error (reports (updates
                             (trace (Part000.handler true pr_opened)
                                remote_first_update_rejected)))
      <-> true = true).
Proof.
  split; [reflexivity|]. split; [reflexivity|]. split; [reflexivity|].
  split.
  - apply (proj1 (C4_reports_determined remote_ok remote_comment_rejected pr_opened
                    true true 42 42) eq_refl eq_refl).
    reflexivity.
  - split; [reflexivity|]. split; [reflexivity|].
    apply (proj2 (C4_reports_determined remote_ok remote_first_update_rejected pr_opened
                    true true 42 42) eq_refl eq_refl).
Defined.

(** * The parts of a report agree *)

Lemma length_append (a b : string) :
  String.length (a ++ b) = String.length a + String.length b.
Proof. induction a as [|ch a IH]; simpl; [reflexivity|now rewrite IH]. Qed.

Lemma append_cancel_r (a b r : string) : a ++ r = b ++ r -> a = b.
Proof.
  revert b. induction a as [|ch a IH]; intros [|d b] H.
  - reflexivity.
  - apply (f_equal String.length) in H. simpl in H. rewrite length_append in H. lia.
  - apply (f_equal String.length) in H. simpl in H. rewrite length_append in H. lia.
  - simpl in H. injection H as -> H. now rewrite (IH b H).
Qed.

Lemma to_uint_not_nil (n : nat) : Nat.to_uint n <> Nil.
Proof.
  rewrite <- (DecimalNat.Unsigned.of_to n) at 1.
  rewrite DecimalNat.Unsigned.to_of. apply DecimalFacts.unorm_nonnil.
Qed.

(** Two numbers print alike only when they are equal. *)
Lemma string_of_nat_inj (n m : nat) : string_of_nat n = string_of_nat m -> n = m.
Proof.
  unfold string_of_nat. intros H.
  apply (f_equal NilZero.uint_of_string) in H.
  rewrite !NilZero.usu in H by apply to_uint_not_nil.
  injection H as H. now apply DecimalNat.Unsigned.to_uint_inj.
Qed.

(** The conclusion, the title and the summary of a report say the same
    thing.  The summary reads "k / n required files present" with k the
    number of passing rows and n the number of rows, k never above n; the
    conclusion is "success" exactly when the summary reads "n / n", and
    exactly when the title says PASSED, and it is "failure" exactly when the
    title says FAILED.  In the demonstration variant, whose conclusion is
    taken from the random draw and whose summary is counted from its rows,
    the conclusion is "success" exactly when the summary reads "3 / 3" and
    exactly when the title says PASSED. *)
Theorem report_is_self_consistent (existence : list RuleResult) (compliant : bool) :
  summary (Index.verdict_output existence)
  = string_of_nat (length (filter pass existence)) ++ " / "
      ++ string_of_nat (length existence) ++ " required files present"
  /\ length (filter pass existence) <= length existence
  /\ (Index.conclusion_of existence = "success"
      <-> summary (Index.verdict_output existence)
          = string_of_nat (length existence) ++ " / "
              ++ string_of_nat (length existence) ++ " required files present")
  /\ (title (Index.verdict_output existence) = "Compliance (files): PASSED"
      <-> Index.conclusion_of existence = "success")
  /\ (title (Index.verdict_output existence) = "Compliance (files): FAILED"
      <-> Index.conclusion_of existence = "failure")
  /\ (Part000.conclusion_of compliant = "success"
      <-> summary (Part000.verdict_output compliant) = "3 / 3 checks passed")
  /\ (title (Part000.verdict_output compliant) = "Compliance: PASSED"
      <-> Part000.conclusion_of compliant = "success").
Proof.
  split; [reflexivity|]. split; [apply filter_length_le|]. split; [|split; [|split; [|split]]].
  - cbn [summary Index.verdict_output]. unfold Index.summary_of.
    rewrite conclusion_success_iff, <- forallb_forall. split.
    + intros Hall.
      assert (Hlen : length (filter pass existence) = length existence).
      { clear -Hall. induction existence as [|x l IH]; [reflexivity|].
        cbn [forallb] in Hall. apply andb_prop in Hall. destruct Hall as [Hx Hl].
        cbn [filter]. rewrite Hx. cbn [length]. now rewrite (IH Hl). }
      now rewrite Hlen.
    + intros H. apply append_cancel_r in H. apply string_of_nat_inj in H.
      now apply filter_length_forallb.
  - unfold Index.verdict_output, Index.conclusion_of. cbn [title].
    destruct (Index.allPass existence); split; intros H; try reflexivity; discriminate.
  - unfold Index.verdict_output, Index.conclusion_of. cbn [title].
    destruct (Index.allPass existence); split; intros H; try reflexivity; discriminate.
  - destruct compliant; cbn; split; intros H; try reflexivity; discriminate.
  - destruct compliant; cbn; split; intros H; try reflexivity; discriminate.
Qed.
